(** * gpx_hr_merger: merging a GPS track with a heart-rate track

    A shallow embedding of [gpx_hr_merger.py] and the properties of its
    pipeline: time parsing, great-circle distance, heart-rate loading and
    matching, the track-building loop, distance rescaling and the TCX
    writer.

    Modelling conventions.
    - A Python [float] is a real number of [R]: distances, coordinates and
      the correction ratio are exact, rounding is not modelled.
    - A [datetime] is a timezone-aware instant, the count of microseconds
      since the epoch (a [Z]).  [(a - b).total_seconds()] is the difference
      of the two counts divided by 10^6; the scan of [get_closest_hr]
      compares such differences with [5.0] and [0.5] seconds and with each
      other, which is the comparison of the microsecond counts with
      5000000 and 500000 and with each other.
    - A GPX document is the list of its [trkpt] elements in document
      order, its numeric attributes and children already read as numbers;
      the text of a [time] child is kept as text, since [parse_time]
      works on it.
    - The two library parsers the program calls, [datetime.fromisoformat]
      and [float], are taken as an interface ([Builtins]); [None] stands
      for their [ValueError].
    - An uncaught exception is a [Raise] result.

    What the model leaves out.  Every instant is timezone-aware, so the
    [TypeError] of subtracting an aware [datetime] from one without offset
    is absent; the numeric texts of a document always convert, so the
    errors of [float] and [int] on them, and of [parse_time] on a [time]
    element without text, are absent; and arithmetic is exact.  The
    properties below are therefore stated for runs and calls that succeed,
    or use only the operations the code performs, and the double-precision
    arithmetic of the rescaling lines is given apart, in [Double], for
    what holds in exact arithmetic only. *)

From Stdlib Require Import Reals Lra ZArith Lia List String Ascii Bool.
From Stdlib Require PrimFloat.
Import ListNotations.

Set Warnings "-register-all".
Set Warnings "-inexact-float".

Open Scope string_scope.
Open Scope Z_scope.

(** ** Results of fallible code *)

Inductive exn : Set :=
| ValueError
| KeyError.

Inductive result (A : Type) : Type :=
| Ok (a : A)
| Raise (e : exn).

Arguments Ok {A} a.
Arguments Raise {A} e.

Definition bind {A B : Type} (m : result A) (k : A -> result B) : result B :=
  match m with
  | Ok a => k a
  | Raise e => Raise e
  end.

Notation "x <- m ;; k" := (bind m (fun x => k))
  (at level 61, m at next level, right associativity).

(** ** The pieces of [str] the program uses *)

(** [s.replace(old, new)] for a one-character [old]. *)
Fixpoint replace (old : ascii) (new : string) (s : string) : string :=
  match s with
  | EmptyString => EmptyString
  | String c s' =>
      if Ascii.eqb c old then new ++ replace old new s'
      else String c (replace old new s')
  end.

(** [c in s] for a one-character [c]. *)
Fixpoint contains (c : ascii) (s : string) : bool :=
  match s with
  | EmptyString => false
  | String c' s' => Ascii.eqb c' c || contains c s'
  end.

(** [s.split(sep)[0]]: the text before the first [sep], all of [s] when
    there is none. *)
Fixpoint split_head (sep : ascii) (s : string) : string :=
  match s with
  | EmptyString => EmptyString
  | String c s' =>
      if Ascii.eqb c sep then EmptyString else String c (split_head sep s')
  end.

(** ** Instants *)

Definition datetime : Set := Z.

Definition seconds (n : Z) : Z := n * 1000000.

(** [(a - b).total_seconds()]. *)
Definition total_seconds (a b : datetime) : R := (IZR (a - b) / 1000000)%R.

(** The library functions behind [parse_time] and the argument of [main]. *)
Class Builtins : Type := {
  fromisoformat : string -> option datetime;
  float : string -> option R
}.

(** Truth value of an [Optional[int]]: [None] and [0] are false. *)
Definition truthy (hr : option Z) : bool :=
  match hr with
  | Some n => negb (n =? 0)
  | None => false
  end.

(** ** Input documents *)

(** A [trkpt] element: the [lat] and [lon] attributes, and the optional
    children [ele], [time] and (in the extensions) [hr]. *)
Record trkpt : Type := {
  attr_lat : R;
  attr_lon : R;
  el_ele : option R;
  el_time : option string;
  el_hr : option Z
}.

(** The files of the working directory: [None] when the path does not
    exist, else the [trkpt] elements of the document. *)
Definition filesystem : Type := string -> option (list trkpt).

Definition exists_ (fs : filesystem) (path : string) : bool :=
  match fs path with
  | Some _ => true
  | None => false
  end.

(** ** Great-circle distance *)

Definition radians (x : R) : R := (x * (PI / 180))%R.

Definition haversine (lon1 lat1 lon2 lat2 : R) : R :=
  let lon1 := radians lon1 in
  let lat1 := radians lat1 in
  let lon2 := radians lon2 in
  let lat2 := radians lat2 in
  let dlon := (lon2 - lon1)%R in
  let dlat := (lat2 - lat1)%R in
  let a := (sin (dlat / 2) ^ 2 + cos lat1 * cos lat2 * sin (dlon / 2) ^ 2)%R in
  let c := (2 * asin (sqrt a))%R in
  let r := 6371000%R in
  (c * r)%R.

(** ** Heart-rate matching *)

(** The [for] loop of [get_closest_hr], with its two variables. *)
Fixpoint closest_scan (target_time : datetime) (hr_data : list (datetime * Z))
    (best_hr : option Z) (min_diff : Z) : option Z :=
  match hr_data with
  | [] => best_hr
  | (t, hr) :: rest =>
      let diff := Z.abs (target_time - t) in
      let best_hr' := if diff <? min_diff then Some hr else best_hr in
      let min_diff' := if diff <? min_diff then diff else min_diff in
      if diff <? 500000 then best_hr'
      else closest_scan target_time rest best_hr' min_diff'
  end.

Definition get_closest_hr (target_time : datetime)
    (hr_data : list (datetime * Z)) : option Z :=
  match hr_data with
  | [] => None
  | _ => closest_scan target_time hr_data None (seconds 5)
  end.

Section Program.

Context {builtins : Builtins}.

(** ** Time parsing *)

Definition parse_time (t : string) : result datetime :=
  let t := replace "Z" "+00:00" t in
  match fromisoformat t with
  | Some d => Ok d
  | None =>
      let t := if contains "." t then split_head "." t ++ "+00:00" else t in
      match fromisoformat t with
      | Some d => Ok d
      | None => Raise ValueError
      end
  end.

(** ** Heart-rate loading *)

(** The [for] loop of [load_hr_data] over the [trkpt] elements, [pts]
    being the list built so far. *)
Fixpoint load_hr_loop (trkpts : list trkpt) (pts : list (datetime * Z))
    : result (list (datetime * Z)) :=
  match trkpts with
  | [] => Ok pts
  | trkpt :: rest =>
      match el_time trkpt with
      | None => load_hr_loop rest pts
      | Some text =>
          t <- parse_time text ;;
          match el_hr trkpt with
          | Some hr =>
              if truthy (Some hr) then load_hr_loop rest (pts ++ [(t, hr)])
              else load_hr_loop rest pts
          | None => load_hr_loop rest pts
          end
      end
  end.

Definition load_hr_data (fs : filesystem) (path : string)
    : result (list (datetime * Z)) :=
  match fs path with
  | None => Ok []
  | Some root => load_hr_loop root []
  end.

(** ** The merged series *)

(** A point of the series: the dictionary [main] appends to
    [track_points].  The key [dist_calculated] is absent until the
    rescaling loop sets it. *)
Record TrackPoint : Type := {
  lat : R;
  lon : R;
  ele : R;
  time : datetime;
  raw_dist : R;
  hr : option Z;
  dist_calculated : option R
}.

(** The variables of the GPS loop of [main].  [prev_lat] and [prev_lon]
    are set together, so they are one optional pair [(prev_lat, prev_lon)]. *)
Record builder : Type := {
  track_points : list TrackPoint;
  prev : option (R * R);
  raw_accumulated_dist : R;
  found_points : nat
}.

Definition builder_init : builder :=
  {| track_points := []; prev := None;
     raw_accumulated_dist := 0%R; found_points := O |}.

(** One iteration of the GPS loop. *)
Definition track_step (hr_data : list (datetime * Z)) (st : builder)
    (trkpt : trkpt) : result builder :=
  let lat := attr_lat trkpt in
  let lon := attr_lon trkpt in
  let ele := match el_ele trkpt with Some e => e | None => 0%R end in
  match el_time trkpt with
  | None => Ok st
  | Some text =>
      t <- parse_time text ;;
      let step_dist :=
        match prev st with
        | Some (prev_lat, prev_lon) => haversine prev_lon prev_lat lon lat
        | None => 0%R
        end in
      let raw_accumulated_dist := (raw_accumulated_dist st + step_dist)%R in
      Ok {| track_points :=
              track_points st ++
              [{| lat := lat; lon := lon; ele := ele; time := t;
                  raw_dist := raw_accumulated_dist;
                  hr := get_closest_hr t hr_data;
                  dist_calculated := None |}];
            prev := Some (lat, lon);
            raw_accumulated_dist := raw_accumulated_dist;
            found_points := S (found_points st) |}
  end.

Fixpoint track_loop (hr_data : list (datetime * Z)) (trkpts : list trkpt)
    (st : builder) : result builder :=
  match trkpts with
  | [] => Ok st
  | trkpt :: rest =>
      st' <- track_step hr_data st trkpt ;;
      track_loop hr_data rest st'
  end.

(** The merged series of a GPS document. *)
Definition build_track (hr_data : list (datetime * Z)) (root : list trkpt)
    : result (list TrackPoint) :=
  st <- track_loop hr_data root builder_init ;;
  Ok (track_points st).

End Program.

(** ** Distance rescaling *)

(** [track_points[-1]["raw_dist"]], for a non-empty series. *)
Definition total_gps_dist (track_points : list TrackPoint) : R :=
  match rev track_points with
  | p :: _ => raw_dist p
  | [] => 0%R
  end.

Definition correction_ratio (target_meters total_gps_dist : R) : R :=
  if Rlt_dec 0 total_gps_dist then (target_meters / total_gps_dist)%R
  else 1%R.

(** The body of the rescaling loop: [p["dist_calculated"] = ...]. *)
Definition set_dist_calculated (ratio : R) (p : TrackPoint) : TrackPoint :=
  {| lat := lat p; lon := lon p; ele := ele p; time := time p;
     raw_dist := raw_dist p; hr := hr p;
     dist_calculated := Some (raw_dist p * ratio)%R |}.

Definition rescale (target_meters : R) (track_points : list TrackPoint)
    : list TrackPoint :=
  let ratio := correction_ratio target_meters (total_gps_dist track_points) in
  map (set_dist_calculated ratio) track_points.

(** ** The rescaling lines in double precision *)

(** Lines 216 to 224 of [main] on the [raw_dist] values of the series,
    with the binary64 operations of Python's [float]. *)
Module Double.

Import PrimFloat.
Local Open Scope float_scope.

Definition total_gps_dist (raw_dists : list float) : float :=
  match rev raw_dists with
  | raw :: _ => raw
  | nil => 0
  end.

Definition correction_ratio (target_meters total_gps_dist : float) : float :=
  if 0 <? total_gps_dist then target_meters / total_gps_dist else 1.

Definition target_meters (target_km : float) : float := target_km * 1000.

(** The [dist_calculated] values, for a target in kilometres. *)
Definition rescale (target_km : float) (raw_dists : list float) : list float :=
  let ratio :=
    correction_ratio (target_meters target_km) (total_gps_dist raw_dists) in
  map (fun raw_dist => raw_dist * ratio) raw_dists.

(** Raw distances of 0, 1 and 3 metres. *)
Definition short_track : list float := 0 :: 1 :: 3 :: nil.

(** Raw distances of a two-point track of 189.8202410010605 metres. *)
Definition measured_track : list float := 0 :: 189.8202410010605 :: nil.

(** [track_points[i]["dist_calculated"]] after rescaling. *)
Definition corrected (target_km : float) (raw_dists : list float) (i : nat)
    : float :=
  nth i (rescale target_km raw_dists) 0.

(** The numbers of the examples: targets of 1 km and 0.41 km, a factor of
    5, and 410 metres. *)
Definition one_km : float := 1.
Definition km_041 : float := 0.41.
Definition five : float := 5.
Definition m_410 : float := 410.

End Double.

(** ** The output document *)

(** The text the writer formats into the document, by the way it is
    formatted. *)
Inductive value : Type :=
| Text (s : string)
| Time (dt : datetime)        (* format_time_tcx(dt) *)
| Float (x : R)               (* {x} *)
| Fixed2 (x : R)              (* {x:.2f} *)
| Int (n : Z).                (* {n} *)

Inductive node : Type :=
| Element (tag : string) (attrs : list (string * value)) (children : list node)
| Leaf (v : value).

Definition format_time_tcx (dt : datetime) : value := Time dt.

(** The lines written for one point.  [p['dist_calculated']] raises
    [KeyError] on a point that was not rescaled. *)
Definition trackpoint_node (p : TrackPoint) : result node :=
  let t_str := format_time_tcx (time p) in
  match dist_calculated p with
  | None => Raise KeyError
  | Some dist =>
      Ok (Element "Trackpoint" []
            ([ Element "Time" [] [Leaf t_str];
               Element "Position" []
                 [ Element "LatitudeDegrees" [] [Leaf (Float (lat p))];
                   Element "LongitudeDegrees" [] [Leaf (Float (lon p))] ];
               Element "AltitudeMeters" [] [Leaf (Float (ele p))];
               Element "DistanceMeters" [] [Leaf (Fixed2 dist)] ]
             ++ match hr p with
                | Some n =>
                    if truthy (Some n)
                    then [ Element "HeartRateBpm" []
                             [ Element "Value" [] [Leaf (Int n)] ] ]
                    else []
                | None => []
                end))
  end.

Fixpoint trackpoint_nodes (points : list TrackPoint) : result (list node) :=
  match points with
  | [] => Ok []
  | p :: rest =>
      n <- trackpoint_node p ;;
      ns <- trackpoint_nodes rest ;;
      Ok (n :: ns)
  end.

(** The document [create_tcx] writes to [out_file]. *)
Definition create_tcx (points : list TrackPoint) (start_time : datetime)
    (total_duration_sec total_dist_meters : R) : result node :=
  track <- trackpoint_nodes points ;;
  Ok (Element "TrainingCenterDatabase"
        [("xmlns",
          Text "http://www.garmin.com/xmlschemas/TrainingCenterDatabase/v2")]
        [ Element "Activities" []
            [ Element "Activity" [("Sport", Text "Running")]
                [ Element "Id" [] [Leaf (format_time_tcx start_time)];
                  Element "Lap" [("StartTime", format_time_tcx start_time)]
                    [ Element "TotalTimeSeconds" []
                        [Leaf (Float total_duration_sec)];
                      Element "DistanceMeters" []
                        [Leaf (Float total_dist_meters)];
                      Element "Intensity" [] [Leaf (Text "Active")];
                      Element "TriggerMethod" [] [Leaf (Text "Manual")];
                      Element "Track" [] track ] ] ] ]).

(** ** The run *)

Inductive diagnostic : Set :=
| MissingArgument       (* Target distance is missing *)
| InvalidArgument       (* not a valid number *)
| MissingInputFile      (* Ensure that GPS.gpx and HR.gpx are ... *)
| NoTrackPoints.        (* No track points found *)

(** How a run of [main] ends: it prints a diagnostic and returns without
    writing, it dies of an uncaught exception, or it writes the document
    to [output_fixed.tcx]. *)
Inductive outcome : Type :=
| Returned (d : diagnostic)
| Uncaught (e : exn)
| Written (doc : node).

Definition file_gps : string := "GPS.gpx".
Definition file_hr : string := "HR.gpx".

Section Main.

Context {builtins : Builtins}.

(** Steps 3 and 4 of [main], on a non-empty series whose first point
    is [first]. *)
Definition finish (target_km : R) (first : TrackPoint)
    (track_points : list TrackPoint) : outcome :=
  let target_meters := (target_km * 1000)%R in
  let track_points := rescale target_meters track_points in
  let start_t := time first in
  let end_t := match rev track_points with p :: _ => time p | [] => start_t end in
  let duration := total_seconds end_t start_t in
  match create_tcx track_points start_t duration target_meters with
  | Ok doc => Written doc
  | Raise e => Uncaught e
  end.

Definition main (argv : list string) (fs : filesystem) : outcome :=
  match argv with
  | [] | [_] => Returned MissingArgument
  | _ :: arg :: _ =>
      match float (replace "," "." arg) with
      | None => Returned InvalidArgument
      | Some target_km =>
          if negb (exists_ fs file_gps) || negb (exists_ fs file_hr)
          then Returned MissingInputFile
          else
            match load_hr_data fs file_hr with
            | Raise e => Uncaught e
            | Ok hr_data =>
                let root := match fs file_gps with Some r => r | None => [] end in
                match build_track hr_data root with
                | Raise e => Uncaught e
                | Ok [] => Returned NoTrackPoints
                | Ok (first :: rest) => finish target_km first (first :: rest)
                end
            end
      end
  end.

End Main.

(** ** Reading the output document *)

Definition children (n : node) : list node :=
  match n with
  | Element _ _ ch => ch
  | Leaf _ => []
  end.

Definition has_tag (tag : string) (n : node) : bool :=
  match n with
  | Element tg _ _ => String.eqb tg tag
  | Leaf _ => false
  end.

Definition leaf_value (n : node) : list value :=
  match n with
  | Leaf v => [v]
  | Element _ _ _ => []
  end.

(** The text directly inside an element. *)
Definition text_of (n : node) : list value := flat_map leaf_value (children n).

(** The child elements of [n] named [tag]. *)
Definition child_elements (tag : string) (n : node) : list node :=
  filter (has_tag tag) (children n).

(** The elements named [tag] anywhere in the tree, in document order. *)
Fixpoint elements (tag : string) (n : node) : list node :=
  match n with
  | Leaf _ => []
  | Element tg _ ch =>
      (if String.eqb tg tag then [n] else []) ++ flat_map (elements tag) ch
  end.

(** The elements reached from [ns] by a path of child names. *)
Fixpoint select (path : list string) (ns : list node) : list node :=
  match path with
  | [] => ns
  | tag :: path' => select path' (flat_map (child_elements tag) ns)
  end.

(** The text of the [DistanceMeters] child of the [Lap]. *)
Definition lap_distance (doc : node) : list value :=
  flat_map text_of
    (select ["Activities"; "Activity"; "Lap"; "DistanceMeters"] [doc]).

(** The text of the [Value] of every [HeartRateBpm] element. *)
Definition heart_rate_values (doc : node) : list value :=
  flat_map (fun n => flat_map text_of (child_elements "Value" n))
    (elements "HeartRateBpm" doc).

(** The [DistanceMeters] text of every [Trackpoint], in order. *)
Definition trackpoint_distances (doc : node) : list value :=
  flat_map (fun n => flat_map text_of (child_elements "DistanceMeters" n))
    (elements "Trackpoint" doc).

(** * Vocabulary of the properties *)

(** The text of the first attempt. *)
Definition normalized (t : string) : string := replace "Z" "+00:00" t.

(** The text of the second attempt. *)
Definition fallback (t : string) : string :=
  if contains "." (normalized t)
  then split_head "." (normalized t) ++ "+00:00"
  else normalized t.

(** The absolute time difference of a sample to the target, in
    microseconds. *)
Definition time_diff (target_time : datetime) (s : datetime * Z) : Z :=
  Z.abs (target_time - fst s).

Definition within_tolerance (target_time : datetime) (s : datetime * Z) : bool :=
  time_diff target_time s <? seconds 5.

(** The distance from point [p] to point [q]. *)
Definition step_between (p q : TrackPoint) : R :=
  haversine (lon p) (lat p) (lon q) (lat q).

(** Each point after [p] adds its step to the distance of the one before. *)
Fixpoint chained (p : TrackPoint) (rest : list TrackPoint) : Prop :=
  match rest with
  | [] => True
  | q :: rest' =>
      raw_dist q = (raw_dist p + step_between p q)%R /\ chained q rest'
  end.

Fixpoint last_from (p : TrackPoint) (rest : list TrackPoint) : TrackPoint :=
  match rest with
  | [] => p
  | q :: rest' => last_from q rest'
  end.

(** The loop's variables agree with the series built so far. *)
Definition builder_inv (st : builder) : Prop :=
  match track_points st with
  | [] => prev st = None /\ raw_accumulated_dist st = 0%R
  | p :: rest =>
      raw_dist p = 0%R /\ chained p rest /\
      prev st = Some (lat (last_from p rest), lon (last_from p rest)) /\
      raw_accumulated_dist st = raw_dist (last_from p rest)
  end.

Definition has_time (x : trkpt) : bool :=
  match el_time x with
  | Some _ => true
  | None => false
  end.

(** The elements [load_hr_data] keeps: a time and a heart rate that is
    neither absent nor zero. *)
Definition hr_kept (x : trkpt) : bool := has_time x && truthy (el_hr x).

(** The heart-rate lines written for a point. *)
Definition heart_rate_nodes (p : TrackPoint) : list node :=
  match hr p with
  | Some n =>
      if truthy (Some n)
      then [Element "HeartRateBpm" [] [Element "Value" [] [Leaf (Int n)]]]
      else []
  | None => []
  end.

(** The heart rates that reach the document. *)
Definition heart_rates_written (points : list TrackPoint) : list Z :=
  flat_map (fun p => match hr p with
                     | Some n => if truthy (Some n) then [n] else []
                     | None => []
                     end) points.

(** [track_points[-1]["dist_calculated"]]. *)
Definition total_corrected_dist (track_points : list TrackPoint) : option R :=
  match rev track_points with
  | p :: _ => dist_calculated p
  | [] => None
  end.

Section Vocabulary.

Context {builtins : Builtins}.

(** What the loop copies from a retained element into its point. *)
Definition point_of (hr_data : list (datetime * Z)) (x : trkpt)
    (p : TrackPoint) : Prop :=
  lat p = attr_lat x /\ lon p = attr_lon x /\
  ele p = match el_ele x with Some e => e | None => 0%R end /\
  (exists text, el_time x = Some text /\ parse_time text = Ok (time p)) /\
  hr p = get_closest_hr (time p) hr_data /\
  dist_calculated p = None.

Definition sample_of (x : trkpt) (s : datetime * Z) : Prop :=
  (exists text, el_time x = Some text /\ parse_time text = Ok (fst s)) /\
  el_hr x = Some (snd s).

(** The values a run that writes its document goes through. *)
Record completes (argv : list string) (fs : filesystem)
    (hr_data : list (datetime * Z)) (series : list TrackPoint)
    (target_meters : R) (doc : node) : Prop := {
  run_target :
    exists prog arg more target_km,
      argv = prog :: arg :: more /\
      float (replace "," "." arg) = Some target_km /\
      target_meters = (target_km * 1000)%R;
  run_hr : exists hr_root, fs file_hr = Some hr_root /\
                           load_hr_data fs file_hr = Ok hr_data;
  run_gps : exists gps_root, fs file_gps = Some gps_root /\
                             build_track hr_data gps_root = Ok series;
  run_nonempty : series <> [];
  run_doc :
    exists start_t duration,
      create_tcx (rescale target_meters series) start_t duration target_meters
      = Ok doc;
  run_written : main argv fs = Written doc
}.

End Vocabulary.

(** ** Sample inputs *)

(** The graph of [datetime.fromisoformat] and of [float] on the texts of
    the sample inputs below. *)
Definition sample_fromisoformat (s : string) : option datetime :=
  if String.eqb s "2024-01-01T10:00:00+00:00" then Some (seconds 1704103200)
  else if String.eqb s "2024-01-01T10:00:03+00:00" then Some (seconds 1704103203)
  else None.

Definition sample_float (s : string) : option R :=
  if String.eqb s "5" then Some 5%R
  else if String.eqb s "5.0" then Some 5%R
  else None.

Definition sample_builtins : Builtins :=
  {| fromisoformat := sample_fromisoformat; float := sample_float |}.

(** A working directory with the two input files, each present or not. *)
Definition files (gps hr : option (list trkpt)) : filesystem :=
  fun path =>
    if String.eqb path file_gps then gps
    else if String.eqb path file_hr then hr
    else None.

(** A GPS fix at 9 E, 120 m, with the given latitude and time text. *)
Definition gps_fix (lat : R) (text : string) : trkpt :=
  {| attr_lat := lat; attr_lon := 9; el_ele := Some 120%R;
     el_time := Some text; el_hr := None |}.

(** A track of two fixes three seconds apart, with an element without
    time between them. *)
Definition sample_track : list trkpt :=
  [ gps_fix 45 "2024-01-01T10:00:00Z";
    {| attr_lat := 44; attr_lon := 8; el_ele := None;
       el_time := None; el_hr := None |};
    gps_fix 46 "2024-01-01T10:00:03Z" ].

Definition sample_series : list TrackPoint :=
  [ {| lat := 45; lon := 9; ele := 120; time := seconds 1704103200;
       raw_dist := (0 + 0)%R; hr := None; dist_calculated := None |};
    {| lat := 46; lon := 9; ele := 120; time := seconds 1704103203;
       raw_dist := (0 + 0 + haversine 9 45 9 46)%R; hr := None;
       dist_calculated := None |} ].

(** A heart-rate entry with the given time text and value. *)
Definition hr_entry (text : string) (bpm : Z) : trkpt :=
  {| attr_lat := 45; attr_lon := 9; el_ele := None;
     el_time := Some text; el_hr := Some bpm |}.

(** A series with raw distances 0, 60 and 100 metres. *)
Definition measured_point (t : Z) (raw : R) : TrackPoint :=
  {| lat := 45; lon := 9; ele := 120; time := seconds t; raw_dist := raw;
     hr := None; dist_calculated := None |}.

Definition measured_series : list TrackPoint :=
  [measured_point 0 0; measured_point 1 60; measured_point 2 100].

(** A heart-rate document: a zero reading, an entry without time, an
    entry without heart rate and a reading of 150. *)
Definition sample_hr_doc : list trkpt :=
  [ hr_entry "2024-01-01T10:00:00Z" 0;
    {| attr_lat := 45; attr_lon := 9; el_ele := None;
       el_time := None; el_hr := Some 140 |};
    {| attr_lat := 45; attr_lon := 9; el_ele := None;
       el_time := Some "2024-01-01T10:00:00Z"; el_hr := None |};
    hr_entry "2024-01-01T10:00:03Z" 150 ].

Definition sample_argv : list string := ["gpx_hr_merger.py"; "5,0"].

(** The point the loop makes of a lone retained GPS element. *)
Definition lone_point (x : trkpt) (t : datetime) (hr_data : list (datetime * Z))
    : TrackPoint :=
  {| lat := attr_lat x; lon := attr_lon x;
     ele := match el_ele x with Some e => e | None => 0%R end;
     time := t; raw_dist := (0 + 0)%R;
     hr := get_closest_hr t hr_data; dist_calculated := None |}.

(** ** Vocabulary of the further properties *)

(** The text of the [TotalTimeSeconds] child of the [Lap]. *)
Definition lap_total_time (doc : node) : list value :=
  flat_map text_of
    (select ["Activities"; "Activity"; "Lap"; "TotalTimeSeconds"] [doc]).

(** The text of the [Id] of the [Activity]. *)
Definition activity_id (doc : node) : list value :=
  flat_map text_of (select ["Activities"; "Activity"; "Id"] [doc]).

(** The corrected distances of a series, in order. *)
Definition corrected_distances (series : list TrackPoint) : list (option R) :=
  map dist_calculated series.

(** [q] is [p] but for its heart rate. *)
Definition same_but_hr (p q : TrackPoint) : Prop :=
  lat q = lat p /\ lon q = lon p /\ ele q = ele p /\ time q = time p /\
  raw_dist q = raw_dist p /\ dist_calculated q = dist_calculated p.

(** A point has a heart rate that the writer emits. *)
Definition has_heart_rate (p : TrackPoint) : bool := truthy (hr p).

(** The scan picked the sample [(t, h)] of [hr_data] as the nearest one:
    the samples before it are strictly further from the target, the ones
    after it are not closer. *)
Definition first_nearest (target : datetime) (hr_data : list (datetime * Z))
    (t : datetime) (h : Z) : Prop :=
  exists before after,
    hr_data = (before ++ (t, h) :: after)%list /\
    Forall (fun s => time_diff target (t, h) < time_diff target s) before /\
    Forall (fun s => time_diff target (t, h) <= time_diff target s) after.

(** The samples the scan reads: those up to and including the first one
    under half a second from the target. *)
Fixpoint scanned (target : datetime) (hr_data : list (datetime * Z))
    : list (datetime * Z) :=
  match hr_data with
  | [] => []
  | s :: rest =>
      if time_diff target s <? 500000 then [s]
      else s :: scanned target rest
  end.

(** Three corrected points: a heart rate of 150, a heart rate of 0 and no
    heart rate. *)
Definition heart_rate_points : list TrackPoint :=
  [ {| lat := 45; lon := 9; ele := 120; time := 0; raw_dist := 0;
       hr := Some 150; dist_calculated := Some 0%R |};
    {| lat := 45; lon := 9; ele := 120; time := seconds 1; raw_dist := 0;
       hr := Some 0; dist_calculated := Some 0%R |};
    {| lat := 45; lon := 9; ele := 120; time := seconds 2; raw_dist := 0;
       hr := None; dist_calculated := Some 0%R |} ].

Section FurtherVocabulary.

Context {builtins : Builtins}.

(** The time text of an element, when it has one, parses. *)
Definition time_parses (x : trkpt) : Prop :=
  forall text, el_time x = Some text -> exists t, parse_time text = Ok t.

End FurtherVocabulary.

(** * Properties *)

(** ** Strings *)

Lemma string_app_assoc (s1 s2 s3 : string) :
  (s1 ++ s2) ++ s3 = s1 ++ (s2 ++ s3).
Proof.
  induction s1 as [|c s1 IH]; simpl; [reflexivity|]. now rewrite IH.
Qed.

Lemma replace_app (old : ascii) (new s1 s2 : string) :
  replace old new (s1 ++ s2) = replace old new s1 ++ replace old new s2.
Proof.
  induction s1 as [|c s1 IH]; [reflexivity|].
  cbn [replace append]. fold (append s1 s2). rewrite IH.
  destruct (Ascii.eqb c old).
  - now rewrite string_app_assoc.
  - reflexivity.
Qed.

Lemma replace_absent (old : ascii) (new s : string) :
  contains old s = false -> replace old new s = s.
Proof.
  induction s as [|c s IH]; simpl; [reflexivity|].
  intros H. apply orb_false_iff in H as [Hc Hs].
  rewrite Hc. now rewrite IH.
Qed.

(** [split_head] cuts at the first separator. *)
Lemma split_head_cut (sep : ascii) (s : string) :
  contains sep s = true ->
  contains sep (split_head sep s) = false /\
  exists rest, s = split_head sep s ++ String sep rest.
Proof.
  induction s as [|c s IH]; simpl; [discriminate|].
  destruct (Ascii.eqb c sep) eqn:E; simpl.
  - intros _. split; [reflexivity|].
    apply Ascii.eqb_eq in E. subst c. now exists s.
  - intros H. destruct (IH H) as [H1 [rest H2]].
    rewrite E. split; [exact H1|].
    exists rest. now rewrite <- H2.
Qed.

Lemma split_head_absent (sep : ascii) (s : string) :
  contains sep s = false -> split_head sep s = s.
Proof.
  induction s as [|c s IH]; simpl; [reflexivity|].
  intros H. apply orb_false_iff in H as [Hc Hs].
  rewrite Hc. now rewrite IH.
Qed.

(** ** Time parsing *)

Section ParseTime.

Context {builtins : Builtins}.

Lemma parse_time_first (t : string) (d : datetime) :
  fromisoformat (normalized t) = Some d -> parse_time t = Ok d.
Proof. unfold parse_time, normalized. now intros ->. Qed.

Lemma parse_time_second (t : string) :
  fromisoformat (normalized t) = None ->
  parse_time t =
  match fromisoformat (fallback t) with
  | Some d => Ok d
  | None => Raise ValueError
  end.
Proof. unfold parse_time, fallback, normalized. now intros ->. Qed.

Lemma parse_time_fails_iff (t : string) (e : exn) :
  parse_time t = Raise e <->
  e = ValueError /\
  fromisoformat (normalized t) = None /\ fromisoformat (fallback t) = None.
Proof.
  destruct (fromisoformat (normalized t)) as [d|] eqn:E1.
  - rewrite (parse_time_first _ _ E1). split; [discriminate|].
    intros (_ & H & _). discriminate.
  - rewrite (parse_time_second _ E1).
    destruct (fromisoformat (fallback t)) as [d|] eqn:E2.
    + split; [discriminate|]. intros (_ & _ & H). discriminate.
    + split.
      * intros H. injection H as <-. auto.
      * intros (-> & _). reflexivity.
Qed.

End ParseTime.

(** ** Heart-rate matching *)

Lemma get_closest_hr_scan (target : datetime) (hr_data : list (datetime * Z)) :
  get_closest_hr target hr_data = closest_scan target hr_data None (seconds 5).
Proof. now destruct hr_data. Qed.

(** A sample out of tolerance leaves the scan's variables as they are. *)
Lemma closest_scan_filter (target : datetime) (hr_data : list (datetime * Z)) :
  forall best_hr min_diff,
    min_diff <= seconds 5 ->
    closest_scan target hr_data best_hr min_diff =
    closest_scan target (filter (within_tolerance target) hr_data)
      best_hr min_diff.
Proof.
  unfold seconds.
  induction hr_data as [|[t h] rest IH]; intros best m Hm; [reflexivity|].
  cbn [filter]. unfold within_tolerance at 1, seconds, time_diff. cbn [fst].
  destruct (Z.ltb_spec (Z.abs (target - t)) (5 * 1000000)) as [Hin|Hout].
  - cbn [closest_scan].
    destruct (Z.ltb_spec (Z.abs (target - t)) m);
      destruct (Z.ltb_spec (Z.abs (target - t)) 500000);
      try reflexivity; apply IH; lia.
  - cbn [closest_scan].
    destruct (Z.ltb_spec (Z.abs (target - t)) m); [lia|].
    destruct (Z.ltb_spec (Z.abs (target - t)) 500000); [lia|].
    now apply IH.
Qed.

(** What the scan returns is the value it started with or the value of a
    sample closer than the bound it started with. *)
Lemma closest_scan_sound (target : datetime) (hr_data : list (datetime * Z)) :
  forall best_hr min_diff h,
    closest_scan target hr_data best_hr min_diff = Some h ->
    best_hr = Some h \/
    exists t, In (t, h) hr_data /\ time_diff target (t, h) < min_diff.
Proof.
  induction hr_data as [|[t x] rest IH]; intros best m h; [now left|].
  cbn [closest_scan]. unfold time_diff. cbn [fst].
  destruct (Z.ltb_spec (Z.abs (target - t)) m) as [Hlt|Hge];
    destruct (Z.ltb_spec (Z.abs (target - t)) 500000) as [Hnear|Hfar]; intros H.
  - injection H as <-. right. exists t. split; [now left | exact Hlt].
  - apply IH in H as [H|[t' [Hin Hd]]].
    + injection H as <-. right. exists t. split; [now left | exact Hlt].
    + right. exists t'. split; [now right|].
      unfold time_diff in Hd. cbn [fst] in Hd. lia.
  - now left.
  - apply IH in H as [H|[t' [Hin Hd]]]; [now left|].
    right. exists t'. split; [now right | exact Hd].
Qed.

(** The scan returns the first sample under half a second, whatever
    follows it. *)
Lemma closest_scan_early_exit (target : datetime)
    (before : list (datetime * Z)) (t : datetime) (h : Z)
    (after : list (datetime * Z)) :
  Forall (fun s => 500000 <= time_diff target s) before ->
  time_diff target (t, h) < 500000 ->
  forall best_hr min_diff,
    500000 <= min_diff ->
    closest_scan target (before ++ (t, h) :: after) best_hr min_diff = Some h.
Proof.
  intros Hbefore Hhit.
  induction Hbefore as [|[t' h'] before Hfar _ IH]; intros best m Hm.
  - cbn [app closest_scan]. unfold time_diff in Hhit. cbn [fst] in Hhit.
    destruct (Z.ltb_spec (Z.abs (target - t)) m); [|lia].
    destruct (Z.ltb_spec (Z.abs (target - t)) 500000); [reflexivity|lia].
  - cbn [app closest_scan]. unfold time_diff in Hfar. cbn [fst] in Hfar.
    destruct (Z.ltb_spec (Z.abs (target - t')) 500000); [lia|].
    destruct (Z.ltb_spec (Z.abs (target - t')) m); apply IH; lia.
Qed.

Lemma get_closest_hr_filter (target : datetime) (hr_data : list (datetime * Z)) :
  get_closest_hr target hr_data =
  get_closest_hr target (filter (within_tolerance target) hr_data).
Proof.
  rewrite !get_closest_hr_scan. apply closest_scan_filter. lia.
Qed.

Lemma get_closest_hr_sound (target : datetime) (hr_data : list (datetime * Z))
    (h : Z) :
  get_closest_hr target hr_data = Some h ->
  exists t, In (t, h) hr_data /\ time_diff target (t, h) < seconds 5.
Proof.
  rewrite get_closest_hr_scan. intros H.
  apply closest_scan_sound in H as [H|H]; [discriminate | exact H].
Qed.

Lemma get_closest_hr_none (target : datetime) (hr_data : list (datetime * Z)) :
  Forall (fun s => seconds 5 <= time_diff target s) hr_data ->
  get_closest_hr target hr_data = None.
Proof.
  intros H. rewrite get_closest_hr_filter.
  replace (filter (within_tolerance target) hr_data) with (@nil (datetime * Z));
    [reflexivity|].
  induction H as [|s l Hs _ IH]; [reflexivity|].
  cbn [filter]. unfold within_tolerance.
  destruct (Z.ltb_spec (time_diff target s) (seconds 5)); [lia | exact IH].
Qed.

(** ** Great-circle distance *)

Lemma asin_nonneg (x : R) : (0 <= x)%R -> (0 <= asin x)%R.
Proof.
  intros Hx. unfold asin.
  destruct (Rle_dec x (-1)) as [H|_]; [lra|].
  destruct (Rle_dec 1 x) as [_|H1].
  - pose proof PI_RGT_0. lra.
  - assert (Hs : (0 < sqrt (1 - x²))%R).
    { apply sqrt_lt_R0. unfold Rsqr. nra. }
    assert (Hq : (0 <= x / sqrt (1 - x²))%R).
    { unfold Rdiv. apply Rmult_le_pos; [exact Hx|].
      left. now apply Rinv_0_lt_compat. }
    destruct Hq as [Hq|Hq].
    + left. rewrite <- atan_0. now apply atan_increasing.
    + rewrite <- Hq, atan_0. lra.
Qed.

Lemma haversine_nonneg (lon1 lat1 lon2 lat2 : R) :
  (0 <= haversine lon1 lat1 lon2 lat2)%R.
Proof.
  unfold haversine. cbv zeta.
  apply Rmult_le_pos; [|lra].
  apply Rmult_le_pos; [lra|].
  apply asin_nonneg, sqrt_pos.
Qed.

Lemma haversine_same (lon1 lat1 : R) : haversine lon1 lat1 lon1 lat1 = 0%R.
Proof.
  unfold haversine. cbv zeta.
  replace ((radians lat1 - radians lat1) / 2)%R with 0%R by lra.
  replace ((radians lon1 - radians lon1) / 2)%R with 0%R by lra.
  rewrite sin_0.
  replace (0 ^ 2 + cos (radians lat1) * cos (radians lat1) * 0 ^ 2)%R
    with 0%R by lra.
  rewrite sqrt_0, asin_0. lra.
Qed.

(** ** The track-building loop *)

Lemma last_from_snoc (p q : TrackPoint) (rest : list TrackPoint) :
  last_from p (rest ++ [q]) = q.
Proof.
  revert p. induction rest as [|r rest IH]; intros p; [reflexivity|].
  cbn [app last_from]. apply IH.
Qed.

Lemma chained_snoc (p q : TrackPoint) (rest : list TrackPoint) :
  chained p rest ->
  raw_dist q =
    (raw_dist (last_from p rest) + step_between (last_from p rest) q)%R ->
  chained p (rest ++ [q]).
Proof.
  revert p. induction rest as [|r rest IH]; intros p Hc Hq.
  - cbn in *. auto.
  - cbn [app chained last_from] in *. destruct Hc as [Hr Hc].
    split; [exact Hr|]. now apply IH.
Qed.

Lemma chained_adjacent (p : TrackPoint) (rest : list TrackPoint) :
  chained p rest ->
  forall i a b,
    nth_error (p :: rest) i = Some a ->
    nth_error (p :: rest) (S i) = Some b ->
    raw_dist b = (raw_dist a + step_between a b)%R.
Proof.
  revert p. induction rest as [|r rest IH]; intros p Hc i a b Ha Hb.
  - destruct i; discriminate.
  - destruct Hc as [Hr Hc]. destruct i as [|i].
    + cbn in Ha, Hb. injection Ha as <-. injection Hb as <-. exact Hr.
    + cbn [nth_error] in Ha, Hb. now apply (IH r Hc i).
Qed.

Lemma chained_monotone (p : TrackPoint) (rest : list TrackPoint) :
  chained p rest ->
  forall q, In q rest -> (raw_dist p <= raw_dist q)%R.
Proof.
  revert p. induction rest as [|r rest IH]; intros p Hc q Hq; [easy|].
  destruct Hc as [Hr Hc].
  assert (Hpr : (raw_dist p <= raw_dist r)%R).
  { rewrite Hr. pose proof (haversine_nonneg (lon p) (lat p) (lon r) (lat r)).
    unfold step_between. lra. }
  destruct Hq as [<-|Hq]; [exact Hpr|].
  pose proof (IH r Hc q Hq). lra.
Qed.

Lemma chained_sorted (p : TrackPoint) (rest : list TrackPoint) :
  chained p rest ->
  forall i j a b,
    (i <= j)%nat ->
    nth_error (p :: rest) i = Some a ->
    nth_error (p :: rest) j = Some b ->
    (raw_dist a <= raw_dist b)%R.
Proof.
  revert p. induction rest as [|r rest IH]; intros p Hc i j a b Hij Ha Hb.
  - destruct i as [|i]; [|now destruct i].
    destruct j as [|j]; [|now destruct j].
    cbn in Ha, Hb. injection Ha as <-. injection Hb as <-. lra.
  - destruct i as [|i].
    + cbn in Ha. injection Ha as <-.
      destruct j as [|j].
      * cbn in Hb. injection Hb as <-. lra.
      * cbn [nth_error] in Hb. apply (chained_monotone _ _ Hc).
        now apply nth_error_In with j.
    + destruct j as [|j]; [lia|].
      cbn [nth_error] in Ha, Hb. destruct Hc as [_ Hc].
      apply (IH r Hc i j); [lia | exact Ha | exact Hb].
Qed.

Lemma chained_last_max (p : TrackPoint) (rest : list TrackPoint) :
  chained p rest ->
  forall q, In q (p :: rest) ->
    (raw_dist q <= raw_dist (last_from p rest))%R.
Proof.
  revert p. induction rest as [|r rest IH]; intros p Hc q Hq.
  - destruct Hq as [<-|[]]. cbn. lra.
  - cbn [last_from]. destruct Hc as [Hr Hc]. destruct Hq as [<-|Hq].
    + pose proof (IH r Hc r (or_introl eq_refl)).
      pose proof (haversine_nonneg (lon p) (lat p) (lon r) (lat r)).
      unfold step_between in Hr. lra.
    + now apply IH.
Qed.

Section TrackLoop.

Context {builtins : Builtins}.
Variable hr_data : list (datetime * Z).

Lemma track_step_skip (st : builder) (x : trkpt) :
  el_time x = None -> track_step hr_data st x = Ok st.
Proof. unfold track_step. now intros ->. Qed.

Lemma track_step_keep (st st' : builder) (x : trkpt) (text : string) :
  el_time x = Some text ->
  track_step hr_data st x = Ok st' ->
  exists p,
    point_of hr_data x p /\
    track_points st' = (track_points st ++ [p])%list /\
    prev st' = Some (lat p, lon p) /\
    raw_accumulated_dist st' = raw_dist p /\
    found_points st' = S (found_points st) /\
    raw_dist p =
      (raw_accumulated_dist st +
       match prev st with
       | Some (prev_lat, prev_lon) => haversine prev_lon prev_lat (lon p) (lat p)
       | None => 0
       end)%R.
Proof.
  unfold track_step. intros Ht. rewrite Ht.
  destruct (parse_time text) as [t|e] eqn:Hp; cbn [bind]; [|discriminate].
  intros H. injection H as <-. eexists. cbn.
  repeat split; try reflexivity.
  exists text. now split.
Qed.

Lemma track_step_inv (st st' : builder) (x : trkpt) :
  builder_inv st -> track_step hr_data st x = Ok st' -> builder_inv st'.
Proof.
  intros Hinv Hstep. destruct (el_time x) as [text|] eqn:Ht.
  - destruct (track_step_keep _ _ _ _ Ht Hstep)
      as (p & _ & Hpts & Hprev & Hacc & _ & Hraw).
    unfold builder_inv in *. rewrite Hpts.
    destruct (track_points st) as [|p0 rest].
    + destruct Hinv as [Hnone Hzero]. rewrite Hnone, Hzero in Hraw.
      cbn. repeat split; auto. lra.
    + destruct Hinv as (H0 & Hc & Hp & Ha). cbn [app].
      rewrite last_from_snoc. repeat split; auto.
      apply chained_snoc; [exact Hc|].
      rewrite Hraw, Hp, Ha. reflexivity.
  - rewrite (track_step_skip _ _ Ht) in Hstep. now injection Hstep as <-.
Qed.

Lemma track_loop_inv (trkpts : list trkpt) :
  forall st st',
    builder_inv st -> track_loop hr_data trkpts st = Ok st' -> builder_inv st'.
Proof.
  induction trkpts as [|x rest IH]; intros st st' Hinv H.
  - cbn in H. now injection H as <-.
  - cbn [track_loop] in H.
    destruct (track_step hr_data st x) as [st1|e] eqn:Hs; [|discriminate].
    cbn [bind] in H. apply (IH st1 st'); [|exact H].
    now apply (track_step_inv st st1 x).
Qed.

(** The loop appends one point per element that has a time, in order. *)
Lemma track_loop_points (trkpts : list trkpt) :
  forall st st',
    track_loop hr_data trkpts st = Ok st' ->
    exists new,
      track_points st' = (track_points st ++ new)%list /\
      Forall2 (point_of hr_data) (filter has_time trkpts) new /\
      found_points st' = (found_points st + List.length new)%nat.
Proof.
  induction trkpts as [|x rest IH]; intros st st' H.
  - cbn in H. injection H as <-. exists []. rewrite app_nil_r.
    repeat split; [constructor | cbn; lia].
  - cbn [track_loop] in H.
    destruct (track_step hr_data st x) as [st1|e] eqn:Hs; [|discriminate].
    cbn [bind] in H. destruct (IH _ _ H) as (new & Hnew & Hall & Hcount).
    cbn [filter]. unfold has_time at 1.
    destruct (el_time x) as [text|] eqn:Ht.
    + destruct (track_step_keep _ _ _ _ Ht Hs)
        as (p & Hp & Hpts & _ & _ & Hfound & _).
      exists (p :: new). rewrite Hnew, Hpts, <- app_assoc.
      repeat split; [now constructor | cbn; lia].
    + rewrite (track_step_skip _ _ Ht) in Hs. injection Hs as <-.
      now exists new.
Qed.

(** The loop fails only on a time text that does not parse. *)
Lemma track_loop_total (trkpts : list trkpt) :
  Forall (fun x => forall text, el_time x = Some text ->
                   exists t, parse_time text = Ok t) trkpts ->
  forall st, exists st', track_loop hr_data trkpts st = Ok st'.
Proof.
  induction 1 as [|x rest Hx _ IH]; intros st; [now exists st|].
  cbn [track_loop]. unfold track_step.
  destruct (el_time x) as [text|].
  - destruct (Hx text eq_refl) as [t ->]. cbn [bind]. apply IH.
  - cbn [bind]. apply IH.
Qed.

Lemma build_track_points (root : list trkpt) (pts : list TrackPoint) :
  build_track hr_data root = Ok pts ->
  Forall2 (point_of hr_data) (filter has_time root) pts.
Proof.
  unfold build_track.
  destruct (track_loop hr_data root builder_init) as [st|e] eqn:H;
    [|discriminate].
  cbn [bind]. intros E. injection E as <-.
  destruct (track_loop_points _ _ _ H) as (new & Hnew & Hall & _).
  now rewrite Hnew.
Qed.

Lemma build_track_chained (root : list trkpt) (p : TrackPoint)
    (rest : list TrackPoint) :
  build_track hr_data root = Ok (p :: rest) ->
  raw_dist p = 0%R /\ chained p rest.
Proof.
  unfold build_track.
  destruct (track_loop hr_data root builder_init) as [st|e] eqn:H;
    [|discriminate].
  cbn [bind]. intros E. injection E as E.
  assert (Hinv : builder_inv st).
  { apply (track_loop_inv root builder_init st); [|exact H]. now cbn. }
  unfold builder_inv in Hinv. rewrite E in Hinv. tauto.
Qed.

End TrackLoop.

(** ** Heart-rate loading *)

Section LoadHr.

Context {builtins : Builtins}.

Lemma load_hr_loop_samples (trkpts : list trkpt) :
  forall pts res,
    load_hr_loop trkpts pts = Ok res ->
    exists new,
      res = (pts ++ new)%list /\ Forall2 sample_of (filter hr_kept trkpts) new.
Proof.
  induction trkpts as [|x rest IH]; intros pts res H.
  - cbn in H. injection H as <-. exists []. now rewrite app_nil_r.
  - cbn [load_hr_loop filter] in *. unfold hr_kept at 1, has_time.
    destruct (el_time x) as [text|] eqn:Ht; [|now apply IH].
    destruct (parse_time text) as [t|e] eqn:Hp; [|discriminate].
    cbn [bind andb] in *.
    destruct (el_hr x) as [h|] eqn:Hh; [|now apply IH].
    destruct (truthy (Some h)) eqn:Htr; [|now apply IH].
    destruct (IH _ _ H) as (new & -> & Hall).
    exists ((t, h) :: new). rewrite <- app_assoc. split; [reflexivity|].
    constructor; [|exact Hall].
    split; [exists text; now split | exact Hh].
Qed.

Lemma hr_kept_nonzero (x : trkpt) (s : datetime * Z) :
  hr_kept x = true -> sample_of x s -> snd s <> 0.
Proof.
  unfold hr_kept. intros H [_ Hh]. rewrite Hh in H.
  apply andb_prop in H as [_ H]. cbn in H.
  intros E. rewrite E in H. discriminate.
Qed.

Lemma Forall2_filter_right {A B : Type} (f : A -> bool) (R : A -> B -> Prop)
    (P : B -> Prop) (l : list A) (l' : list B) :
  (forall a b, f a = true -> R a b -> P b) ->
  Forall2 R (filter f l) l' -> Forall P l'.
Proof.
  intros HP H.
  assert (Hf : Forall (fun a => f a = true) (filter f l)).
  { apply Forall_forall. intros a Ha. now apply filter_In in Ha. }
  induction H as [|a b la lb Hab _ IH]; [constructor|].
  inversion Hf; subst. constructor; [now apply (HP a) | now apply IH].
Qed.

Lemma load_hr_data_nonzero (fs : filesystem) (path : string)
    (hr_data : list (datetime * Z)) :
  load_hr_data fs path = Ok hr_data ->
  Forall (fun s => snd s <> 0) hr_data.
Proof.
  unfold load_hr_data. destruct (fs path) as [root|].
  - intros H. destruct (load_hr_loop_samples _ _ _ H) as (new & -> & Hall).
    cbn [app]. apply (Forall2_filter_right _ _ _ _ _ hr_kept_nonzero Hall).
  - intros H. injection H as <-. constructor.
Qed.

(** The loader fails only on a time text that does not parse. *)
Lemma load_hr_loop_total (trkpts : list trkpt) :
  Forall (fun x => forall text, el_time x = Some text ->
                   exists t, parse_time text = Ok t) trkpts ->
  forall pts, exists res, load_hr_loop trkpts pts = Ok res.
Proof.
  induction 1 as [|x rest Hx _ IH]; intros pts; [now exists pts|].
  cbn [load_hr_loop].
  destruct (el_time x) as [text|]; [|apply IH].
  destruct (Hx text eq_refl) as [t ->]. cbn [bind].
  destruct (el_hr x) as [h|]; [|apply IH].
  destruct (truthy (Some h)); apply IH.
Qed.

End LoadHr.

(** ** Rescaling *)

Lemma last_from_split (p : TrackPoint) (rest : list TrackPoint) :
  exists l, p :: rest = (l ++ [last_from p rest])%list.
Proof.
  revert p. induction rest as [|q rest IH]; intros p.
  - now exists [].
  - destruct (IH q) as [l Hl]. exists (p :: l).
    cbn [last_from app]. now rewrite <- Hl.
Qed.

Lemma total_gps_dist_last (p : TrackPoint) (rest : list TrackPoint) :
  total_gps_dist (p :: rest) = raw_dist (last_from p rest).
Proof.
  unfold total_gps_dist. destruct (last_from_split p rest) as [l ->].
  now rewrite rev_unit.
Qed.

Lemma correction_ratio_pos (target_meters total : R) :
  (0 < total)%R -> correction_ratio target_meters total = (target_meters / total)%R.
Proof.
  intros H. unfold correction_ratio. destruct (Rlt_dec 0 total); [reflexivity|lra].
Qed.

Lemma correction_ratio_degenerate (target_meters total : R) :
  (total <= 0)%R -> correction_ratio target_meters total = 1%R.
Proof.
  intros H. unfold correction_ratio. destruct (Rlt_dec 0 total); [lra|reflexivity].
Qed.

Lemma correction_ratio_same (total : R) : correction_ratio total total = 1%R.
Proof.
  unfold correction_ratio. destruct (Rlt_dec 0 total); [|reflexivity].
  field. lra.
Qed.

Lemma rescale_nth (target_meters : R) (track_points : list TrackPoint)
    (i : nat) :
  nth_error (rescale target_meters track_points) i =
  option_map
    (set_dist_calculated
       (correction_ratio target_meters (total_gps_dist track_points)))
    (nth_error track_points i).
Proof. unfold rescale. apply nth_error_map. Qed.

(** ** The writer *)

Lemma trackpoint_node_heart_rate (p : TrackPoint) (n : node) :
  trackpoint_node p = Ok n ->
  elements "HeartRateBpm" n = heart_rate_nodes p.
Proof.
  unfold trackpoint_node, heart_rate_nodes.
  destruct (dist_calculated p) as [d|]; [|discriminate].
  destruct (hr p) as [h|]; [unfold truthy; destruct (h =? 0)|];
    intros H; injection H as <-; reflexivity.
Qed.

Lemma trackpoint_node_is_trackpoint (p : TrackPoint) (n : node) :
  trackpoint_node p = Ok n ->
  elements "Trackpoint" n = [n] /\
  flat_map text_of (child_elements "DistanceMeters" n) =
    match dist_calculated p with Some d => [Fixed2 d] | None => [] end.
Proof.
  unfold trackpoint_node.
  destruct (dist_calculated p) as [d|]; [|discriminate].
  destruct (hr p) as [h|]; [unfold truthy; destruct (h =? 0)|];
    intros H; injection H as <-; split; reflexivity.
Qed.

Lemma trackpoint_nodes_cons (p : TrackPoint) (rest : list TrackPoint)
    (track : list node) :
  trackpoint_nodes (p :: rest) = Ok track ->
  exists n ns,
    track = n :: ns /\ trackpoint_node p = Ok n /\ trackpoint_nodes rest = Ok ns.
Proof.
  cbn [trackpoint_nodes].
  destruct (trackpoint_node p) as [n|e]; [|discriminate].
  destruct (trackpoint_nodes rest) as [ns|e]; [|discriminate].
  cbn [bind]. intros H. injection H as <-. now exists n, ns.
Qed.

Lemma trackpoint_nodes_heart_rate (points : list TrackPoint) :
  forall track,
    trackpoint_nodes points = Ok track ->
    flat_map (elements "HeartRateBpm") track = flat_map heart_rate_nodes points.
Proof.
  induction points as [|p rest IH]; intros track H.
  - cbn in H. now injection H as <-.
  - destruct (trackpoint_nodes_cons _ _ _ H) as (n & ns & -> & Hn & Hns).
    cbn [flat_map]. now rewrite (trackpoint_node_heart_rate _ _ Hn), (IH _ Hns).
Qed.

Lemma trackpoint_nodes_distances (points : list TrackPoint) :
  forall track,
    trackpoint_nodes points = Ok track ->
    flat_map (fun n => flat_map text_of (child_elements "DistanceMeters" n))
      (flat_map (elements "Trackpoint") track) =
    flat_map (fun p => match dist_calculated p with
                       | Some d => [Fixed2 d]
                       | None => []
                       end) points.
Proof.
  induction points as [|p rest IH]; intros track H.
  - cbn in H. now injection H as <-.
  - destruct (trackpoint_nodes_cons _ _ _ H) as (n & ns & -> & Hn & Hns).
    destruct (trackpoint_node_is_trackpoint _ _ Hn) as [He Hd].
    cbn [flat_map]. rewrite He. cbn [app flat_map].
    now rewrite Hd, (IH _ Hns).
Qed.

(** The writer does not fail on a rescaled series. *)
Lemma trackpoint_nodes_rescaled (ratio : R) (points : list TrackPoint) :
  exists track,
    trackpoint_nodes (map (set_dist_calculated ratio) points) = Ok track.
Proof.
  induction points as [|p rest [ns IH]]; [now exists []|].
  cbn [map trackpoint_nodes]. rewrite IH.
  unfold trackpoint_node at 1. cbn [dist_calculated set_dist_calculated bind].
  eexists. reflexivity.
Qed.

Lemma create_tcx_track (points : list TrackPoint) (start_time : datetime)
    (total_duration_sec total_dist_meters : R) (doc : node) :
  create_tcx points start_time total_duration_sec total_dist_meters = Ok doc ->
  exists track,
    trackpoint_nodes points = Ok track /\
    elements "HeartRateBpm" doc = flat_map (elements "HeartRateBpm") track /\
    elements "Trackpoint" doc = flat_map (elements "Trackpoint") track /\
    lap_distance doc = [Float total_dist_meters].
Proof.
  unfold create_tcx.
  destruct (trackpoint_nodes points) as [track|e]; [|discriminate].
  cbn [bind]. intros H. injection H as <-. exists track.
  split; [reflexivity|].
  repeat split; cbn; now rewrite ?app_nil_r.
Qed.

Lemma create_tcx_heart_rates (points : list TrackPoint) (start_time : datetime)
    (total_duration_sec total_dist_meters : R) (doc : node) :
  create_tcx points start_time total_duration_sec total_dist_meters = Ok doc ->
  elements "HeartRateBpm" doc = flat_map heart_rate_nodes points /\
  heart_rate_values doc = map Int (heart_rates_written points).
Proof.
  intros H. destruct (create_tcx_track _ _ _ _ _ H) as (track & Ht & He & _).
  assert (E : elements "HeartRateBpm" doc = flat_map heart_rate_nodes points).
  { rewrite He. now apply trackpoint_nodes_heart_rate. }
  split; [exact E|].
  unfold heart_rate_values. rewrite E. clear.
  unfold heart_rates_written.
  induction points as [|p rest IH]; [reflexivity|].
  cbn [flat_map]. rewrite flat_map_app, map_app, IH. f_equal.
  unfold heart_rate_nodes.
  destruct (hr p) as [h|]; [destruct (truthy (Some h))|]; reflexivity.
Qed.

(** ** The run *)

Section Run.

Context {builtins : Builtins}.

Lemma finish_written (target_km : R) (first : TrackPoint)
    (rest : list TrackPoint) :
  exists doc start_t duration,
    finish target_km first (first :: rest) = Written doc /\
    create_tcx (rescale (target_km * 1000) (first :: rest)) start_t duration
      (target_km * 1000) = Ok doc.
Proof.
  unfold finish, create_tcx.
  destruct (trackpoint_nodes_rescaled
              (correction_ratio (target_km * 1000)
                 (total_gps_dist (first :: rest))) (first :: rest))
    as [track Ht].
  unfold rescale. rewrite Ht. cbn [bind].
  eexists. eexists. eexists. split; reflexivity.
Qed.

Lemma main_written (argv : list string) (fs : filesystem) (doc : node) :
  main argv fs = Written doc ->
  exists hr_data series target_meters,
    completes argv fs hr_data series target_meters doc.
Proof.
  unfold main.
  destruct argv as [|prog [|arg more]]; try discriminate.
  destruct (float (replace "," "." arg)) as [target_km|] eqn:Hf;
    [|discriminate].
  unfold exists_.
  destruct (fs file_gps) as [gps_root|] eqn:Hg; [|discriminate].
  destruct (fs file_hr) as [hr_root|] eqn:Hh; [|discriminate].
  cbn [negb orb].
  destruct (load_hr_data fs file_hr) as [hr_data|e] eqn:Hl; [|discriminate].
  destruct (build_track hr_data gps_root) as [[|first rest]|e] eqn:Hb;
    try discriminate.
  intros H. exists hr_data, (first :: rest), (target_km * 1000)%R.
  constructor.
  - now exists prog, arg, more, target_km.
  - now exists hr_root.
  - now exists gps_root.
  - discriminate.
  - destruct (finish_written target_km first rest)
      as (doc' & start_t & duration & Hfin & Hdoc).
    rewrite Hfin in H. injection H as <-. now exists start_t, duration.
  - unfold main, exists_. rewrite Hf, Hg, Hh. cbn [negb orb].
    now rewrite Hl, Hb.
Qed.

(** A run with its argument and both files read, and a non-empty series,
    writes its document. *)
Lemma main_completes (prog arg : string) (more : list string)
    (fs : filesystem) (target_km : R) (hr_root gps_root : list trkpt)
    (hr_data : list (datetime * Z)) (first : TrackPoint)
    (rest : list TrackPoint) :
  float (replace "," "." arg) = Some target_km ->
  fs file_hr = Some hr_root ->
  fs file_gps = Some gps_root ->
  load_hr_loop hr_root [] = Ok hr_data ->
  build_track hr_data gps_root = Ok (first :: rest) ->
  exists doc,
    main (prog :: arg :: more) fs = Written doc /\
    completes (prog :: arg :: more) fs hr_data (first :: rest)
      (target_km * 1000) doc.
Proof.
  intros Hf Hh Hg Hl Hb.
  destruct (finish_written target_km first rest)
    as (doc & start_t & duration & Hfin & Hdoc).
  assert (Hld : load_hr_data fs file_hr = Ok hr_data).
  { unfold load_hr_data. now rewrite Hh. }
  assert (Hmain : main (prog :: arg :: more) fs = Written doc).
  { unfold main, exists_. rewrite Hf, Hg, Hh. cbn [negb orb].
    rewrite Hld, Hb. exact Hfin. }
  exists doc. split; [exact Hmain|].
  constructor.
  - now exists prog, arg, more, target_km.
  - now exists hr_root.
  - now exists gps_root.
  - discriminate.
  - now exists start_t, duration.
  - exact Hmain.
Qed.

(** Without the heart-rate file the run stops at its input check. *)
Lemma main_missing_hr (argv : list string) (fs : filesystem) :
  fs file_hr = None ->
  exists d, main argv fs = Returned d.
Proof.
  intros Hh. unfold main.
  destruct argv as [|prog [|arg more]]; try (now eexists).
  destruct (float (replace "," "." arg)); [|now eexists].
  unfold exists_. rewrite Hh.
  rewrite orb_true_r. now eexists.
Qed.

End Run.

(** ** Runs on one fix and one heart-rate entry *)

Section Fixtures.

Context {builtins : Builtins}.

Lemma build_track_lone (hr_data : list (datetime * Z)) (x : trkpt)
    (text : string) (t : datetime) :
  el_time x = Some text -> parse_time text = Ok t ->
  build_track hr_data [x] = Ok [lone_point x t hr_data].
Proof.
  intros Ht Hp. unfold build_track. cbn [track_loop]. unfold track_step.
  rewrite Ht, Hp. reflexivity.
Qed.

Lemma load_hr_loop_entry (text : string) (t : datetime) (bpm : Z) :
  parse_time text = Ok t -> bpm <> 0 ->
  load_hr_loop [hr_entry text bpm] [] = Ok [(t, bpm)].
Proof.
  intros Hp Hb. cbn [load_hr_loop hr_entry el_time el_hr]. rewrite Hp.
  cbn [bind truthy]. destruct (Z.eqb_spec bpm 0); [contradiction|reflexivity].
Qed.

End Fixtures.

Lemma sample_parse_time :
  @parse_time sample_builtins "2024-01-01T10:00:00Z" = Ok (seconds 1704103200).
Proof. reflexivity. Qed.

(** * The claims *)

(** C9.  Time parsing replaces a trailing "Z" by "+00:00" before the
    first call of [fromisoformat] and returns its result when it
    succeeds; when it fails, the second call is on the text cut at its
    first "." with "+00:00" appended (on the same text when there is no
    "."); and [parse_time] raises, a [ValueError], exactly when both calls
    fail. *)
Theorem parse_time_two_attempts (B : Builtins) (t : string) :
  (forall s, normalized (s ++ "Z") = normalized s ++ "+00:00") /\
  (forall s, contains "Z" s = false -> normalized (s ++ "Z") = s ++ "+00:00") /\
  (forall d, fromisoformat (normalized t) = Some d -> parse_time t = Ok d) /\
  (fromisoformat (normalized t) = None ->
   parse_time t = match fromisoformat (fallback t) with
                  | Some d => Ok d
                  | None => Raise ValueError
                  end) /\
  (contains "." (normalized t) = true ->
   exists head rest,
     normalized t = head ++ String "." rest /\
     contains "." head = false /\
     fallback t = head ++ "+00:00") /\
  (contains "." (normalized t) = false -> fallback t = normalized t) /\
  (forall e, parse_time t = Raise e <->
             e = ValueError /\
             fromisoformat (normalized t) = None /\
             fromisoformat (fallback t) = None).
Proof.
  split; [|split; [|split; [|split; [|split; [|split]]]]].
  - intros s. unfold normalized. now rewrite replace_app.
  - intros s Hs. unfold normalized.
    now rewrite replace_app, (replace_absent _ _ _ Hs).
  - apply parse_time_first.
  - apply parse_time_second.
  - intros Hdot. destruct (split_head_cut _ _ Hdot) as [Hhead [rest Hrest]].
    exists (split_head "." (normalized t)), rest.
    split; [exact Hrest | split; [exact Hhead|]].
    unfold fallback. now rewrite Hdot.
  - intros Hdot. unfold fallback. now rewrite Hdot.
  - intros e. apply parse_time_fails_iff.
Qed.

Lemma parse_time_two_attempts_witness :
  @parse_time sample_builtins "2024-01-01T10:00:00Z" = Ok (seconds 1704103200) /\
  @parse_time sample_builtins "2024-01-01T10:00:00.12345Z"
    = Ok (seconds 1704103200) /\
  @parse_time sample_builtins "yesterday" = Raise ValueError.
Proof.
  split; [|split].
  - destruct (parse_time_two_attempts sample_builtins "2024-01-01T10:00:00Z")
      as (_ & _ & H & _).
    apply H. reflexivity.
  - destruct (parse_time_two_attempts sample_builtins
                "2024-01-01T10:00:00.12345Z") as (_ & _ & _ & H & _).
    rewrite H; reflexivity.
  - destruct (parse_time_two_attempts sample_builtins "yesterday")
      as (_ & _ & _ & _ & _ & _ & H).
    apply H. repeat split; reflexivity.
Defined.

(** C3.  The scan of [get_closest_hr] stops at the first sample whose
    absolute time difference is under half a second and returns it,
    whatever follows; with samples at 4.9 s, 0.3 s and 0.1 s of the target,
    in that order, the value returned is that of the sample at 0.3 s. *)
Theorem closest_hr_early_exit :
  (forall target before t h after,
     Forall (fun s => 500000 <= time_diff target s) before ->
     time_diff target (t, h) < 500000 ->
     get_closest_hr target (before ++ (t, h) :: after) = Some h) /\
  (forall target s1 s2 s3,
     time_diff target s1 = 4900000 ->
     time_diff target s2 = 300000 ->
     time_diff target s3 = 100000 ->
     get_closest_hr target [s1; s2; s3] = Some (snd s2)).
Proof.
  assert (General : forall target before t h after,
     Forall (fun s => 500000 <= time_diff target s) before ->
     time_diff target (t, h) < 500000 ->
     get_closest_hr target (before ++ (t, h) :: after) = Some h).
  { intros target before t h after Hb Ht. rewrite get_closest_hr_scan.
    apply closest_scan_early_exit; [exact Hb | exact Ht | unfold seconds; lia]. }
  split; [exact General|].
  intros target s1 [t2 h2] s3 H1 H2 H3.
  apply (General target [s1] t2 h2 [s3]).
  - constructor; [lia | constructor].
  - lia.
Qed.

Lemma closest_hr_early_exit_witness :
  get_closest_hr (seconds 100)
    [(seconds 100 - 4900000, 140); (seconds 100 + 300000, 150);
     (seconds 100 - 100000, 160)] = Some 150 /\
  get_closest_hr 0 ([(seconds 2, 140); (seconds 1, 145)] ++
                    (400000, 150) :: [(0, 160)]) = Some 150.
Proof.
  destruct closest_hr_early_exit as [General Scenario]. split.
  - apply (Scenario (seconds 100) (seconds 100 - 4900000, 140)
             (seconds 100 + 300000, 150) (seconds 100 - 100000, 160));
      reflexivity.
  - apply (General 0 [(seconds 2, 140); (seconds 1, 145)] 400000 150 [(0, 160)]).
    + repeat constructor; vm_compute; discriminate.
    + reflexivity.
Defined.

(** C4.  [get_closest_hr] looks only at the samples whose absolute time
    difference to the target is strictly under 5 seconds: the samples out
    of tolerance can be removed without changing its result, a value it
    returns is that of a sample within tolerance, and it returns nothing
    on an empty list or when no sample is within tolerance.  So the heart
    rate of a point of the merged series is always that of a sample less
    than 5 seconds from the point, and a value whose samples are all 5
    seconds or more from every point is attached to no point. *)
Theorem closest_hr_tolerance (B : Builtins) :
  (forall target hr_data,
     get_closest_hr target hr_data =
     get_closest_hr target (filter (within_tolerance target) hr_data)) /\
  (forall target hr_data h,
     get_closest_hr target hr_data = Some h ->
     exists t, In (t, h) hr_data /\ time_diff target (t, h) < seconds 5) /\
  (forall target, get_closest_hr target [] = None) /\
  (forall target hr_data,
     Forall (fun s => seconds 5 <= time_diff target s) hr_data ->
     get_closest_hr target hr_data = None) /\
  (forall hr_data root series p h,
     build_track hr_data root = Ok series ->
     In p series -> hr p = Some h ->
     exists t, In (t, h) hr_data /\ time_diff (time p) (t, h) < seconds 5) /\
  (forall hr_data root series h,
     build_track hr_data root = Ok series ->
     (forall t p, In (t, h) hr_data -> In p series ->
                  seconds 5 <= time_diff (time p) (t, h)) ->
     forall p, In p series -> hr p <> Some h).
Proof.
  assert (Attached : forall hr_data root series p h,
     build_track hr_data root = Ok series ->
     In p series -> hr p = Some h ->
     exists t, In (t, h) hr_data /\ time_diff (time p) (t, h) < seconds 5).
  { intros hr_data root series p h Hb Hin Hh.
    apply build_track_points in Hb.
    assert (Hall : Forall (fun p => hr p = get_closest_hr (time p) hr_data)
                     series).
    { clear - Hb. induction Hb as [|x q l l' Hq _ IH]; constructor; auto.
      apply Hq. }
    rewrite Forall_forall in Hall. specialize (Hall p Hin).
    rewrite Hh in Hall. symmetry in Hall.
    now apply get_closest_hr_sound. }
  split; [|split; [|split; [|split; [|split]]]].
  - apply get_closest_hr_filter.
  - apply get_closest_hr_sound.
  - reflexivity.
  - apply get_closest_hr_none.
  - exact Attached.
  - intros hr_data root series h Hb Hfar p Hin Hh.
    destruct (Attached _ _ _ _ _ Hb Hin Hh) as (t & Ht & Hnear).
    specialize (Hfar t p Ht Hin). lia.
Qed.

Lemma closest_hr_tolerance_witness :
  get_closest_hr 0 [(seconds 5, 150); (seconds (-7), 160)] = None /\
  (exists t, In (t, 150) [(seconds 9, 140); (seconds 4, 150)] /\
             time_diff 0 (t, 150) < seconds 5) /\
  (exists t, In (t, 150) [(seconds 1704103203, 150)] /\
             time_diff (seconds 1704103200) (t, 150) < seconds 5).
Proof.
  destruct (closest_hr_tolerance sample_builtins)
    as (_ & Sound & _ & Nothing & Series & _).
  split; [|split].
  - apply Nothing. repeat constructor; vm_compute; discriminate.
  - apply (Sound 0 [(seconds 9, 140); (seconds 4, 150)] 150). reflexivity.
  - apply (Series [(seconds 1704103203, 150)]
             [gps_fix 45 "2024-01-01T10:00:00Z"]
             [lone_point (gps_fix 45 "2024-01-01T10:00:00Z") (seconds 1704103200)
                [(seconds 1704103203, 150)]]
             (lone_point (gps_fix 45 "2024-01-01T10:00:00Z") (seconds 1704103200)
                [(seconds 1704103203, 150)])).
    + reflexivity.
    + left. reflexivity.
    + reflexivity.
Defined.

(** C5.  In the series built from any GPS document, the points are the
    elements that have a time, in document order; the first point has
    distance 0; each later point's [raw_dist] is the [raw_dist] of the
    point before it plus the haversine distance between the two positions;
    and [raw_dist] never decreases along the series. *)
Theorem raw_distance_accumulates (B : Builtins)
    (hr_data : list (datetime * Z)) (root : list trkpt)
    (series : list TrackPoint) :
  build_track hr_data root = Ok series ->
  Forall2 (fun x p => lat p = attr_lat x /\ lon p = attr_lon x)
    (filter has_time root) series /\
  (forall p, nth_error series 0 = Some p -> raw_dist p = 0%R) /\
  (forall i p q,
     nth_error series i = Some p -> nth_error series (S i) = Some q ->
     raw_dist q =
       (raw_dist p + haversine (lon p) (lat p) (lon q) (lat q))%R) /\
  (forall i j p q,
     (i <= j)%nat ->
     nth_error series i = Some p -> nth_error series j = Some q ->
     (raw_dist p <= raw_dist q)%R).
Proof.
  intros Hb. split.
  - apply build_track_points in Hb.
    induction Hb as [|x p l l' Hp _ IH]; constructor; [|exact IH].
    destruct Hp as (Hlat & Hlon & _). now split.
  - destruct series as [|first rest].
    + split; [discriminate|].
      split; intros [|i]; discriminate.
    + destruct (build_track_chained _ _ _ _ Hb) as [H0 Hc].
      split; [|split].
      * intros p Hp. cbn in Hp. now injection Hp as <-.
      * intros i p q. apply (chained_adjacent _ _ Hc).
      * intros i j p q. apply (chained_sorted _ _ Hc).
Qed.

Lemma raw_distance_accumulates_witness :
  @build_track sample_builtins [] sample_track = Ok sample_series /\
  (forall p, nth_error sample_series 0 = Some p -> raw_dist p = 0%R) /\
  (forall p q,
     nth_error sample_series 0 = Some p -> nth_error sample_series 1 = Some q ->
     raw_dist q = (raw_dist p + haversine (lon p) (lat p) (lon q) (lat q))%R) /\
  (forall p q,
     nth_error sample_series 0 = Some p -> nth_error sample_series 1 = Some q ->
     (raw_dist p <= raw_dist q)%R).
Proof.
  assert (Hb : @build_track sample_builtins [] sample_track = Ok sample_series)
    by reflexivity.
  destruct (raw_distance_accumulates sample_builtins [] sample_track
              sample_series Hb) as (_ & First & Step & Sorted).
  split; [exact Hb|]. split; [exact First|]. split.
  - intros p q. apply (Step 0%nat).
  - intros p q. apply (Sorted 0%nat 1%nat). lia.
Defined.

(** C6.  On a non-empty series the rescaler takes the [raw_dist] of the
    last point as the raw total, the ratio is the target divided by the raw
    total when that is positive and 1 when it is 0, and the rescaled series
    has, point for point, [dist_calculated] set to [raw_dist] times the
    ratio and every other field as it was. *)
Theorem rescale_sets_corrected_distance (target_meters : R)
    (series : list TrackPoint) :
  series <> [] ->
  let raw_total := total_gps_dist series in
  let ratio := correction_ratio target_meters raw_total in
  (exists before last_point,
     series = (before ++ [last_point])%list /\
     raw_total = raw_dist last_point) /\
  ((0 < raw_total)%R -> ratio = (target_meters / raw_total)%R) /\
  (raw_total = 0%R -> ratio = 1%R) /\
  List.length (rescale target_meters series) = List.length series /\
  (forall i p,
     nth_error series i = Some p ->
     exists q,
       nth_error (rescale target_meters series) i = Some q /\
       dist_calculated q = Some (raw_dist p * ratio)%R /\
       lat q = lat p /\ lon q = lon p /\ ele q = ele p /\ time q = time p /\
       raw_dist q = raw_dist p /\ hr q = hr p).
Proof.
  intros Hne raw_total ratio. split; [|split; [|split; [|split]]].
  - destruct series as [|p rest]; [contradiction|].
    destruct (last_from_split p rest) as [l Hl].
    exists l, (last_from p rest). split; [exact Hl|].
    apply total_gps_dist_last.
  - apply correction_ratio_pos.
  - intros H. apply correction_ratio_degenerate. lra.
  - unfold rescale. apply length_map.
  - intros i p Hp. rewrite rescale_nth, Hp. cbn [option_map].
    eexists. split; [reflexivity|]. cbn. repeat split.
Qed.

Lemma rescale_sets_corrected_distance_witness :
  correction_ratio 200 (total_gps_dist measured_series) = (200 / 100)%R /\
  exists q,
    nth_error (rescale 200 measured_series) 1 = Some q /\
    dist_calculated q = Some (60 * (200 / 100))%R /\
    raw_dist q = 60%R /\ hr q = None.
Proof.
  assert (Hne : measured_series <> []) by discriminate.
  assert (Htotal : total_gps_dist measured_series = 100%R) by reflexivity.
  destruct (rescale_sets_corrected_distance 200 measured_series Hne)
    as (_ & Pos & _ & _ & Points).
  assert (Hratio : correction_ratio 200 (total_gps_dist measured_series)
                   = (200 / 100)%R).
  { rewrite Pos; rewrite Htotal; [reflexivity | lra]. }
  split; [exact Hratio|].
  destruct (Points 1%nat (measured_point 1 60) eq_refl)
    as (q & Hq & Hd & _ & _ & _ & _ & Hraw & Hhr).
  exists q. rewrite Hratio in Hd. repeat split; assumption.
Defined.


(** C7, as amended.  With the raw total as target the ratio is 1 and
    every point's corrected distance is its raw distance.  With the target
    multiplied by [k], every point's corrected distance is its raw
    distance times the ratio of the multiplied target; and when the raw
    total is 0 the ratio stays 1, so the corrected distances do not
    change. *)
Theorem rescale_identity_and_linearity (B : Builtins) :
  (forall series,
     correction_ratio (total_gps_dist series) (total_gps_dist series) = 1%R /\
     forall i p,
       nth_error series i = Some p ->
       exists q,
         nth_error (rescale (total_gps_dist series) series) i = Some q /\
         dist_calculated q = Some (raw_dist p)) /\
  (forall series target_meters k i p,
     nth_error series i = Some p ->
     exists q',
       nth_error (rescale (k * target_meters) series) i = Some q' /\
       dist_calculated q' =
         Some (raw_dist p *
               correction_ratio (k * target_meters) (total_gps_dist series))%R /\
       ((0 < total_gps_dist series)%R ->
        correction_ratio (k * target_meters) (total_gps_dist series)
        = (k * target_meters / total_gps_dist series)%R)) /\
  (forall series target_meters k,
     total_gps_dist series = 0%R ->
     rescale (k * target_meters) series = rescale target_meters series).
Proof.
  split; [|split].
  - intros series. split; [apply correction_ratio_same|].
    intros i p Hp. rewrite rescale_nth, Hp. cbn [option_map].
    eexists. split; [reflexivity|].
    cbn [dist_calculated set_dist_calculated].
    rewrite correction_ratio_same. f_equal. lra.
  - intros series target_meters k i p Hp.
    rewrite rescale_nth, Hp. cbn [option_map].
    eexists. split; [reflexivity|]. split; [reflexivity|].
    apply correction_ratio_pos.
  - intros series target_meters k Hzero. unfold rescale.
    rewrite Hzero, !correction_ratio_degenerate by lra. reflexivity.
Qed.

Lemma rescale_identity_and_linearity_witness :
  (exists q,
     nth_error (rescale (total_gps_dist measured_series) measured_series) 1
       = Some q /\
     dist_calculated q = Some 60%R) /\
  (exists q',
     nth_error (rescale (3 * 200) measured_series) 1 = Some q' /\
     dist_calculated q' = Some (60 * (3 * 200 / 100))%R) /\
  rescale (3 * 200) [measured_point 0 0] = rescale 200 [measured_point 0 0].
Proof.
  destruct (rescale_identity_and_linearity sample_builtins)
    as (Identity & Scaled & Degenerate).
  split; [|split].
  - destruct (Identity measured_series) as [_ Points].
    apply (Points 1%nat (measured_point 1 60)). reflexivity.
  - destruct (Scaled measured_series 200%R 3%R 1%nat (measured_point 1 60)
                eq_refl) as (q' & Hq' & Hd & Hratio).
    exists q'. split; [exact Hq'|].
    assert (Htotal : total_gps_dist measured_series = 100%R) by reflexivity.
    rewrite Hd, Hratio; rewrite Htotal; [reflexivity | lra].
  - apply (Degenerate [measured_point 0 0] 200%R 3%R). reflexivity.
Defined.

(** The claim of C7 fails in double precision.  For raw distances of 0, 1
    and 3 metres, the corrected distance of the second point with the
    target 5 times 1 km is not 5 times its corrected distance with the
    target 1 km: they are 1666.6666666666667 and 1666.6666666666665. *)
Lemma rescale_not_linear_in_doubles :
  PrimFloat.eqb
    (Double.corrected (PrimFloat.mul Double.five Double.one_km)
       Double.short_track 1)
    (PrimFloat.mul Double.five
       (Double.corrected Double.one_km Double.short_track 1)) = false.
Proof. vm_compute. reflexivity. Qed.

(** In double precision the corrected distance of the last point need not
    be the target: for a track of 189.8202410010605 metres and the target
    0.41 km, which is 410 metres, it is 410.00000000000006. *)
Lemma last_corrected_not_target_in_doubles :
  PrimFloat.eqb (Double.target_meters Double.km_041) Double.m_410 = true /\
  PrimFloat.eqb (Double.corrected Double.km_041 Double.measured_track 1)
    Double.m_410 = false.
Proof. split; vm_compute; reflexivity. Qed.

Lemma hr_kept_iff (x : trkpt) :
  hr_kept x = true <->
  (exists text, el_time x = Some text) /\
  (exists n, el_hr x = Some n /\ n <> 0).
Proof.
  unfold hr_kept, has_time, truthy.
  destruct (el_time x) as [text|]; destruct (el_hr x) as [n|]; cbn.
  - destruct (Z.eqb_spec n 0) as [->|Hn]; cbn.
    + split; [discriminate|]. intros (_ & m & Hm & Hne). now injection Hm as <-.
    + split; [|reflexivity]. intros _. split; [now exists text | now exists n].
  - split; [discriminate|]. intros (_ & m & Hm & _). discriminate.
  - split; [discriminate|]. intros ((t & Ht) & _). discriminate.
  - split; [discriminate|]. intros ((t & Ht) & _). discriminate.
Qed.

Lemma heart_rates_written_nonzero (points : list TrackPoint) :
  ~ In 0 (heart_rates_written points).
Proof.
  unfold heart_rates_written. rewrite in_flat_map. intros (p & _ & Hin).
  destruct (hr p) as [n|]; [|contradiction].
  unfold truthy in Hin. destruct (Z.eqb_spec n 0) as [E|Hn]; cbn [negb] in Hin.
  - contradiction.
  - destruct Hin as [E|[]]. now apply Hn.
Qed.

Lemma create_tcx_no_zero_heart_rate (points : list TrackPoint)
    (start_time : datetime) (total_duration_sec total_dist_meters : R)
    (doc : node) :
  create_tcx points start_time total_duration_sec total_dist_meters = Ok doc ->
  ~ In (Int 0) (heart_rate_values doc).
Proof.
  intros H. destruct (create_tcx_heart_rates _ _ _ _ _ H) as [_ ->].
  rewrite in_map_iff. intros (n & Hn & Hin).
  injection Hn as Hn. subst n.
  now apply (heart_rates_written_nonzero points).
Qed.

(** C8.  [load_hr_data] keeps exactly the entries that have a time and a
    heart rate that is neither absent nor zero, in document order, so no
    sample has the value 0; and a document the writer produces, for any
    points and in any run, has no [HeartRateBpm] element whose value is
    0. *)
Theorem zero_heart_rate_is_absent (B : Builtins) :
  (forall x,
     hr_kept x = true <->
     (exists text, el_time x = Some text) /\
     (exists n, el_hr x = Some n /\ n <> 0)) /\
  (forall fs path hr_data,
     load_hr_data fs path = Ok hr_data ->
     (forall root, fs path = Some root ->
                   Forall2 sample_of (filter hr_kept root) hr_data) /\
     Forall (fun s => snd s <> 0) hr_data) /\
  (forall points start_time total_duration_sec total_dist_meters doc,
     create_tcx points start_time total_duration_sec total_dist_meters
       = Ok doc ->
     ~ In (Int 0) (heart_rate_values doc)) /\
  (forall argv fs doc,
     main argv fs = Written doc -> ~ In (Int 0) (heart_rate_values doc)).
Proof.
  split; [|split; [|split]].
  - apply hr_kept_iff.
  - intros fs path hr_data H. split.
    + intros root Hroot. unfold load_hr_data in H. rewrite Hroot in H.
      destruct (load_hr_loop_samples _ _ _ H) as (new & -> & Hall).
      exact Hall.
    + now apply (load_hr_data_nonzero fs path).
  - apply create_tcx_no_zero_heart_rate.
  - intros argv fs doc H.
    destruct (main_written _ _ _ H) as (hr_data & series & target & Hrun).
    destruct (run_doc _ _ _ _ _ _ Hrun) as (start_t & duration & Hdoc).
    now apply (create_tcx_no_zero_heart_rate _ _ _ _ _ Hdoc).
Qed.

Lemma zero_heart_rate_is_absent_witness :
  filter hr_kept sample_hr_doc = [hr_entry "2024-01-01T10:00:03Z" 150] /\
  Forall2 (@sample_of sample_builtins) (filter hr_kept sample_hr_doc)
    [(seconds 1704103203, 150)] /\
  Forall (fun s => snd s <> 0) [(seconds 1704103203, 150)] /\
  (forall doc,
     @main sample_builtins sample_argv
       (files (Some sample_track) (Some sample_hr_doc)) = Written doc ->
     ~ In (Int 0) (heart_rate_values doc)).
Proof.
  destruct (zero_heart_rate_is_absent sample_builtins)
    as (_ & Load & _ & Run).
  assert (Hl : @load_hr_data sample_builtins
                 (files (Some sample_track) (Some sample_hr_doc)) file_hr
               = Ok [(seconds 1704103203, 150)]) by reflexivity.
  destruct (Load _ _ _ Hl) as [Kept Nonzero].
  split; [reflexivity|]. split; [|split].
  - apply (Kept sample_hr_doc). reflexivity.
  - exact Nonzero.
  - intros doc. apply Run.
Defined.

Lemma get_closest_hr_single (target t : datetime) (h : Z) :
  time_diff target (t, h) < seconds 5 ->
  get_closest_hr target [(t, h)] = Some h.
Proof.
  unfold time_diff, seconds, get_closest_hr. cbn [fst closest_scan].
  intros H. unfold seconds.
  destruct (Z.ltb_spec (Z.abs (target - t)) (5 * 1000000)); [|lia].
  now destruct (Z.abs (target - t) <? 500000).
Qed.

(** C10.  Only zero counts as an absent heart rate.  Take any GPS document
    with one fix and any heart-rate document with one entry, less than 5
    seconds from the fix, whose value is negative: loading keeps the
    sample, the fix gets its value, and the document written has one
    [HeartRateBpm] element, with that negative value. *)
Theorem negative_heart_rate_is_written (B : Builtins)
    (gps_text hr_text : string) (t_gps t_hr : datetime) (bpm : Z)
    (target_km : R) :
  parse_time gps_text = Ok t_gps ->
  parse_time hr_text = Ok t_hr ->
  time_diff t_gps (t_hr, bpm) < seconds 5 ->
  bpm < 0 ->
  float "5.0" = Some target_km ->
  let fs := files (Some [gps_fix 45 gps_text]) (Some [hr_entry hr_text bpm]) in
  load_hr_data fs file_hr = Ok [(t_hr, bpm)] /\
  (exists p, build_track [(t_hr, bpm)] [gps_fix 45 gps_text] = Ok [p] /\
             hr p = Some bpm) /\
  (exists doc,
     main sample_argv fs = Written doc /\
     elements "HeartRateBpm" doc =
       [Element "HeartRateBpm" [] [Element "Value" [] [Leaf (Int bpm)]]] /\
     heart_rate_values doc = [Int bpm]).
Proof.
  intros Hg Hh Hnear Hneg Hfloat fs.
  assert (Hload : load_hr_loop [hr_entry hr_text bpm] [] = Ok [(t_hr, bpm)]).
  { apply load_hr_loop_entry; [exact Hh | lia]. }
  assert (Hbuild : build_track [(t_hr, bpm)] [gps_fix 45 gps_text]
                   = Ok [lone_point (gps_fix 45 gps_text) t_gps [(t_hr, bpm)]]).
  { now apply (build_track_lone _ _ gps_text). }
  assert (Hhr : hr (lone_point (gps_fix 45 gps_text) t_gps [(t_hr, bpm)])
                = Some bpm).
  { cbn [hr lone_point]. now apply get_closest_hr_single. }
  assert (Htruthy : truthy (Some bpm) = true).
  { unfold truthy. destruct (Z.eqb_spec bpm 0); [lia | reflexivity]. }
  split; [exact Hload|]. split.
  - eexists. split; [exact Hbuild | exact Hhr].
  - destruct (main_completes "gpx_hr_merger.py" "5,0" [] fs target_km
                [hr_entry hr_text bpm] [gps_fix 45 gps_text] [(t_hr, bpm)]
                (lone_point (gps_fix 45 gps_text) t_gps [(t_hr, bpm)]) []
                Hfloat eq_refl eq_refl Hload Hbuild) as (doc & Hmain & Hrun).
    exists doc. split; [exact Hmain|].
    destruct (run_doc _ _ _ _ _ _ Hrun) as (start_t & duration & Hdoc).
    destruct (create_tcx_heart_rates _ _ _ _ _ Hdoc) as [He Hv].
    rewrite He, Hv. unfold rescale, heart_rates_written.
    cbn [map flat_map app]. unfold heart_rate_nodes.
    cbn [hr set_dist_calculated]. rewrite Hhr, Htruthy. split; reflexivity.
Qed.

Lemma negative_heart_rate_is_written_witness :
  exists doc,
    @main sample_builtins sample_argv
      (files (Some [gps_fix 45 "2024-01-01T10:00:00Z"])
             (Some [hr_entry "2024-01-01T10:00:03Z" (-7)])) = Written doc /\
    heart_rate_values doc = [Int (-7)].
Proof.
  destruct (negative_heart_rate_is_written sample_builtins
              "2024-01-01T10:00:00Z" "2024-01-01T10:00:03Z"
              (seconds 1704103200) (seconds 1704103203) (-7) 5%R
              eq_refl eq_refl eq_refl eq_refl eq_refl)
    as (_ & _ & doc & Hmain & _ & Hvalues).
  exists doc. split; assumption.
Defined.

Lemma build_track_no_hr_data (B : Builtins) (root : list trkpt)
    (series : list TrackPoint) :
  build_track [] root = Ok series -> Forall (fun p => hr p = None) series.
Proof.
  intros Hb. apply build_track_points in Hb.
  induction Hb as [|x p l l' Hp _ IH]; constructor; [|exact IH].
  destruct Hp as (_ & _ & _ & _ & Hhr & _). exact Hhr.
Qed.

Lemma no_heart_rate_nodes (ratio : R) (series : list TrackPoint) :
  Forall (fun p => hr p = None) series ->
  flat_map heart_rate_nodes (map (set_dist_calculated ratio) series) = [].
Proof.
  induction 1 as [|p l Hp _ IH]; [reflexivity|].
  cbn [map flat_map]. rewrite IH. unfold heart_rate_nodes.
  cbn [hr set_dist_calculated]. now rewrite Hp.
Qed.

(** C1, as amended.  When the heart-rate file does not exist,
    [load_hr_data] returns the empty list, but [main] does not get that
    far: it prints a diagnostic and returns without writing, and with a
    valid argument the diagnostic is the one of the input-file check.  In
    a run that does write its document with an empty heart-rate list, no
    point has a heart rate and the document has no [HeartRateBpm]
    element. *)
Theorem missing_hr_file_stops_run (B : Builtins) :
  (forall argv fs,
     fs file_hr = None ->
     load_hr_data fs file_hr = Ok [] /\
     (exists d, main argv fs = Returned d) /\
     (forall prog arg more target_km,
        argv = prog :: arg :: more ->
        float (replace "," "." arg) = Some target_km ->
        main argv fs = Returned MissingInputFile)) /\
  (forall argv fs series target_meters doc,
     completes argv fs [] series target_meters doc ->
     Forall (fun p => hr p = None) series /\
     elements "HeartRateBpm" doc = []).
Proof.
  split.
  - intros argv fs Hh. split; [|split].
    + unfold load_hr_data. now rewrite Hh.
    + now apply main_missing_hr.
    + intros prog arg more target_km -> Hf.
      unfold main, exists_. rewrite Hf, Hh. now rewrite orb_true_r.
  - intros argv fs series target_meters doc Hrun.
    destruct (run_gps _ _ _ _ _ _ Hrun) as (gps_root & _ & Hb).
    destruct (run_doc _ _ _ _ _ _ Hrun) as (start_t & duration & Hdoc).
    pose proof (build_track_no_hr_data B _ _ Hb) as Hnone.
    split; [exact Hnone|].
    destruct (create_tcx_heart_rates _ _ _ _ _ Hdoc) as [-> _].
    now apply no_heart_rate_nodes.
Qed.

Lemma missing_hr_file_stops_run_witness :
  @main sample_builtins sample_argv (files (Some sample_track) None)
    = Returned MissingInputFile /\
  (exists doc,
     @main sample_builtins sample_argv (files (Some sample_track) (Some []))
       = Written doc /\
     elements "HeartRateBpm" doc = []).
Proof.
  destruct (missing_hr_file_stops_run sample_builtins) as [Missing Empty].
  split.
  - destruct (Missing sample_argv (files (Some sample_track) None) eq_refl)
      as (_ & _ & H).
    apply (H "gpx_hr_merger.py" "5,0" [] 5%R); reflexivity.
  - destruct (@main_completes sample_builtins "gpx_hr_merger.py" "5,0" []
                (files (Some sample_track) (Some [])) 5%R [] sample_track []
                _ _ eq_refl eq_refl eq_refl eq_refl eq_refl)
      as (doc & Hmain & Hrun).
    exists doc. split; [exact Hmain|].
    now apply (Empty _ _ _ _ _ Hrun).
Defined.

(** The claim of C1 fails: with a GPS file, a valid argument and no
    heart-rate file, the run writes no document. *)
Lemma missing_hr_file_no_output :
  files (Some sample_track) None file_hr = None /\
  files (Some sample_track) None file_gps = Some sample_track /\
  @main sample_builtins sample_argv (files (Some sample_track) None)
    = Returned MissingInputFile /\
  (forall doc,
     @main sample_builtins sample_argv (files (Some sample_track) None)
       <> Written doc).
Proof. repeat split. discriminate. Qed.

Lemma total_corrected_dist_rescale (target_meters : R) (p : TrackPoint)
    (rest : list TrackPoint) :
  total_corrected_dist (rescale target_meters (p :: rest)) =
  Some (total_gps_dist (p :: rest) *
        correction_ratio target_meters (total_gps_dist (p :: rest)))%R.
Proof.
  unfold rescale, total_corrected_dist.
  generalize (correction_ratio target_meters (total_gps_dist (p :: rest))).
  intros ratio. rewrite total_gps_dist_last.
  destruct (last_from_split p rest) as [l ->].
  rewrite map_app. cbn [map]. now rewrite rev_unit.
Qed.

Lemma create_tcx_distances (points : list TrackPoint) (start_time : datetime)
    (total_duration_sec total_dist_meters : R) (doc : node) :
  create_tcx points start_time total_duration_sec total_dist_meters = Ok doc ->
  lap_distance doc = [Float total_dist_meters] /\
  trackpoint_distances doc =
    flat_map (fun p => match dist_calculated p with
                       | Some d => [Fixed2 d]
                       | None => []
                       end) points.
Proof.
  intros H. destruct (create_tcx_track _ _ _ _ _ H) as (track & Ht & _ & He & Hl).
  split; [exact Hl|].
  unfold trackpoint_distances. rewrite He.
  now apply trackpoint_nodes_distances.
Qed.

(** C2, as amended.  In every run that writes its document, the
    [DistanceMeters] of the [Lap] is the target distance in metres, the
    number [main] gives to [create_tcx]; the corrected distance of the last
    point of the series is the raw total times the ratio, the ratio being
    the target divided by the raw total when the raw total is positive;
    and when the raw total is 0 that corrected distance is 0, the [Lap]
    still having the target. *)
Theorem lap_distance_is_target (B : Builtins) (argv : list string)
    (fs : filesystem) (hr_data : list (datetime * Z))
    (series : list TrackPoint) (target_meters : R) (doc : node) :
  completes argv fs hr_data series target_meters doc ->
  lap_distance doc = [Float target_meters] /\
  total_corrected_dist (rescale target_meters series) =
    Some (total_gps_dist series *
          correction_ratio target_meters (total_gps_dist series))%R /\
  (0 <= total_gps_dist series)%R /\
  ((0 < total_gps_dist series)%R ->
   correction_ratio target_meters (total_gps_dist series)
   = (target_meters / total_gps_dist series)%R) /\
  (total_gps_dist series = 0%R ->
   total_corrected_dist (rescale target_meters series) = Some 0%R).
Proof.
  intros Hrun.
  destruct (run_gps _ _ _ _ _ _ Hrun) as (gps_root & _ & Hb).
  destruct (run_doc _ _ _ _ _ _ Hrun) as (start_t & duration & Hdoc).
  pose proof (run_nonempty _ _ _ _ _ _ Hrun) as Hne.
  destruct series as [|p rest]; [contradiction|].
  assert (Hbound : (0 <= total_gps_dist (p :: rest))%R).
  { destruct (build_track_chained _ _ _ _ Hb) as [H0 Hc].
    pose proof (chained_last_max _ _ Hc p (or_introl eq_refl)).
    rewrite total_gps_dist_last. lra. }
  split; [apply (create_tcx_distances _ _ _ _ _ Hdoc)|].
  split; [apply total_corrected_dist_rescale|].
  split; [exact Hbound|]. split.
  - apply correction_ratio_pos.
  - intros Hzero. rewrite total_corrected_dist_rescale, Hzero.
    f_equal. lra.
Qed.

Lemma lap_distance_is_target_witness :
  exists doc,
    @main sample_builtins sample_argv
      (files (Some sample_track) (Some sample_hr_doc)) = Written doc /\
    lap_distance doc = [Float (5 * 1000)].
Proof.
  destruct (@main_completes sample_builtins "gpx_hr_merger.py" "5,0" []
              (files (Some sample_track) (Some sample_hr_doc)) 5%R
              sample_hr_doc sample_track [(seconds 1704103203, 150)] _ _
              eq_refl eq_refl eq_refl eq_refl eq_refl)
    as (doc & Hmain & Hrun).
  exists doc. split; [exact Hmain|].
  apply (lap_distance_is_target sample_builtins _ _ _ _ _ _ Hrun).
Defined.

(** The claim of C2 fails on a track of one point: the run writes the
    target, 5000 m, as the [DistanceMeters] of the [Lap], while the
    corrected distance of the last (and only) point is 0. *)
Lemma lap_distance_degenerate_track :
  exists doc series,
    completes (builtins := sample_builtins) sample_argv
      (files (Some [gps_fix 45 "2024-01-01T10:00:00Z"]) (Some []))
      [] series (5 * 1000) doc /\
    total_gps_dist series = (0 + 0)%R /\
    lap_distance doc = [Float (5 * 1000)] /\
    total_corrected_dist (rescale (5 * 1000) series) = Some 0%R /\
    trackpoint_distances doc = [Fixed2 0] /\
    (5 * 1000 <> 0)%R.
Proof.
  destruct (@main_completes sample_builtins "gpx_hr_merger.py" "5,0" []
              (files (Some [gps_fix 45 "2024-01-01T10:00:00Z"]) (Some []))
              5%R [] [gps_fix 45 "2024-01-01T10:00:00Z"] []
              (lone_point (gps_fix 45 "2024-01-01T10:00:00Z")
                 (seconds 1704103200) []) []
              eq_refl eq_refl eq_refl eq_refl eq_refl)
    as (doc & Hmain & Hrun).
  destruct (run_doc _ _ _ _ _ _ Hrun) as (start_t & duration & Hdoc).
  destruct (create_tcx_distances _ _ _ _ _ Hdoc) as [Hlap Hdist].
  exists doc. eexists. split; [exact Hrun|].
  split; [reflexivity|]. split; [exact Hlap|].
  assert (Hratio : forall total, total = (0 + 0)%R ->
                   (total * correction_ratio (5 * 1000) total)%R = 0%R).
  { intros total ->. rewrite correction_ratio_degenerate; lra. }
  split; [|split].
  - rewrite total_corrected_dist_rescale. f_equal. now apply Hratio.
  - rewrite Hdist. unfold rescale. cbn [map flat_map].
    cbn [dist_calculated set_dist_calculated app]. do 2 f_equal.
    now apply Hratio.
  - lra.
Qed.

(** * Further properties *)

(** ** Great-circle distance *)

(** X1.  [haversine] is symmetric: the distance from the first point to
    the second is the distance from the second to the first. *)
Theorem haversine_symmetric (lon1 lat1 lon2 lat2 : R) :
  haversine lon1 lat1 lon2 lat2 = haversine lon2 lat2 lon1 lat1.
Proof.
  unfold haversine. cbv zeta.
  replace ((radians lat1 - radians lat2) / 2)%R
    with (- ((radians lat2 - radians lat1) / 2))%R by lra.
  replace ((radians lon1 - radians lon2) / 2)%R
    with (- ((radians lon2 - radians lon1) / 2))%R by lra.
  rewrite !sin_neg.
  match goal with
  | |- (2 * asin (sqrt ?a) * _ = 2 * asin (sqrt ?b) * _)%R =>
      replace a with b by ring
  end.
  reflexivity.
Qed.


(** X3.  The distance from a point to itself is 0. *)
Theorem haversine_identical (lon1 lat1 : R) :
  haversine lon1 lat1 lon1 lat1 = 0%R.
Proof.
  unfold haversine. cbv zeta.
  assert (Hlat : ((radians lat1 - radians lat1) / 2 = 0)%R) by lra.
  assert (Hlon : ((radians lon1 - radians lon1) / 2 = 0)%R) by lra.
  rewrite Hlat, Hlon, sin_0.
  assert (Ha : (0 ^ 2 + cos (radians lat1) * cos (radians lat1) * 0 ^ 2
                = 0)%R) by lra.
  rewrite Ha, sqrt_0, asin_0. lra.
Qed.

(** ** Heart-rate matching *)

Lemma closest_scan_finds (target : datetime) (hr_data : list (datetime * Z)) :
  forall best_hr min_diff,
    (best_hr = None -> 500000 <= min_diff) ->
    best_hr <> None \/
      Exists (fun s => time_diff target s < min_diff) hr_data ->
    closest_scan target hr_data best_hr min_diff <> None.
Proof.
  induction hr_data as [|[t h] rest IH]; intros best m Hinv Hsome.
  - destruct Hsome as [H|H]; [exact H | inversion H].
  - cbn [closest_scan].
    destruct (Z.ltb_spec (Z.abs (target - t)) m) as [Hlt|Hge];
      destruct (Z.ltb_spec (Z.abs (target - t)) 500000) as [Hnear|Hfar].
    + discriminate.
    + apply IH; [discriminate | left; discriminate].
    + destruct best as [b|]; [discriminate|].
      specialize (Hinv eq_refl). lia.
    + apply IH; [exact Hinv|].
      destruct Hsome as [H|H]; [now left|].
      inversion H as [s l Hs|s l Hl]; subst.
      * unfold time_diff in Hs. cbn [fst] in Hs. lia.
      * now right.
Qed.

(** X4.  [get_closest_hr] returns a value exactly when some sample is
    strictly less than 5 seconds from the target. *)
Theorem closest_hr_found_iff (target : datetime)
    (hr_data : list (datetime * Z)) :
  get_closest_hr target hr_data <> None <->
  Exists (fun s => time_diff target s < seconds 5) hr_data.
Proof.
  split.
  - intros H. destruct (get_closest_hr target hr_data) as [h|] eqn:E;
      [|contradiction].
    destruct (get_closest_hr_sound _ _ _ E) as (t & Hin & Hd).
    apply Exists_exists. now exists (t, h).
  - intros H. rewrite get_closest_hr_scan.
    apply closest_scan_finds; [unfold seconds; lia | now right].
Qed.

Lemma closest_scan_scanned (target : datetime) (hr_data : list (datetime * Z)) :
  forall best_hr min_diff,
    closest_scan target hr_data best_hr min_diff =
    closest_scan target (scanned target hr_data) best_hr min_diff.
Proof.
  induction hr_data as [|[t h] rest IH]; intros best m; [reflexivity|].
  cbn [scanned]. unfold time_diff at 1. cbn [fst].
  destruct (Z.ltb_spec (Z.abs (target - t)) 500000) as [Hnear|Hfar].
  - cbn [closest_scan].
    destruct (Z.ltb_spec (Z.abs (target - t)) 500000); [reflexivity|lia].
  - cbn [closest_scan].
    destruct (Z.ltb_spec (Z.abs (target - t)) 500000); [lia|].
    apply IH.
Qed.

(** The value the scan ends with is the one it started with, no sample
    read being closer than the starting bound, or that of the first
    nearest of the samples read. *)
Lemma closest_scan_nearest (target : datetime) (hr_data : list (datetime * Z)) :
  forall best_hr min_diff h,
    closest_scan target hr_data best_hr min_diff = Some h ->
    (best_hr = Some h /\
     Forall (fun s => min_diff <= time_diff target s)
       (scanned target hr_data)) \/
    (exists t, first_nearest target (scanned target hr_data) t h /\
               time_diff target (t, h) < min_diff).
Proof.
  induction hr_data as [|[t0 h0] rest IH]; intros best m h H.
  - left. split; [exact H | constructor].
  - cbn [closest_scan] in H. cbn [scanned].
    change (time_diff target (t0, h0)) with (Z.abs (target - t0)).
    destruct (Z.ltb_spec (Z.abs (target - t0)) 500000) as [Hnear|Hfar];
      destruct (Z.ltb_spec (Z.abs (target - t0)) m) as [Hlt|Hge].
    + injection H as <-. right. exists t0. split; [|exact Hlt].
      exists [], []. repeat split; constructor.
    + left. split; [exact H|]. constructor; [exact Hge | constructor].
    + apply IH in H as [[Hb Hall]|(t & (b & a & Hl & Hb & Ha) & Hd)].
      * injection Hb as <-. right. exists t0. split; [|exact Hlt].
        exists [], (scanned target rest). repeat split; [constructor|].
        exact Hall.
      * right. exists t. split; [|lia].
        exists ((t0, h0) :: b), a. rewrite Hl. repeat split; [|exact Ha].
        constructor; [exact Hd | exact Hb].
    + apply IH in H as [[Hb Hall]|(t & (b & a & Hl & Hb & Ha) & Hd)].
      * left. split; [exact Hb|]. constructor; [exact Hge | exact Hall].
      * right. exists t. split; [|exact Hd].
        exists ((t0, h0) :: b), a. rewrite Hl. repeat split; [|exact Ha].
        constructor; [|exact Hb].
        change (time_diff target (t0, h0)) with (Z.abs (target - t0)). lia.
Qed.

Lemma scanned_all_far (target : datetime) (hr_data : list (datetime * Z)) :
  Forall (fun s => 500000 <= time_diff target s) hr_data ->
  scanned target hr_data = hr_data.
Proof.
  induction 1 as [|s l Hs _ IH]; [reflexivity|].
  cbn [scanned]. destruct (Z.ltb_spec (time_diff target s) 500000); [lia|].
  now rewrite IH.
Qed.

(** X5.  The value [get_closest_hr] returns is that of the first nearest
    sample among the samples it reads, which are those up to the first one
    under half a second; when no sample is under half a second it reads
    them all, and the result is the value of the first nearest sample of
    the whole list. *)
Theorem closest_hr_first_nearest (target : datetime)
    (hr_data : list (datetime * Z)) (h : Z) :
  get_closest_hr target hr_data = Some h ->
  (exists t, first_nearest target (scanned target hr_data) t h /\
             time_diff target (t, h) < seconds 5) /\
  (Forall (fun s => 500000 <= time_diff target s) hr_data ->
   exists t, first_nearest target hr_data t h).
Proof.
  rewrite get_closest_hr_scan. intros H.
  apply closest_scan_nearest in H as [[Hb _]|H]; [discriminate|].
  split; [exact H|].
  intros Hfar. rewrite (scanned_all_far _ _ Hfar) in H.
  destruct H as (t & Hn & _). now exists t.
Qed.

Lemma closest_hr_first_nearest_witness :
  exists t,
    first_nearest 0 [(seconds 3, 140); (seconds (-2), 150); (seconds 2, 160);
                     (seconds 4, 170)] t 150.
Proof.
  assert (Hfar : Forall (fun s => 500000 <= time_diff 0 s)
                   [(seconds 3, 140); (seconds (-2), 150); (seconds 2, 160);
                    (seconds 4, 170)])
    by (repeat constructor; vm_compute; discriminate).
  exact (proj2 (closest_hr_first_nearest 0
                  [(seconds 3, 140); (seconds (-2), 150); (seconds 2, 160);
                   (seconds 4, 170)] 150 eq_refl) Hfar).
Defined.

Lemma closest_hr_found_iff_witness :
  get_closest_hr 0 [(seconds 9, 140); (seconds (-4), 150)] <> None.
Proof.
  apply (closest_hr_found_iff 0 [(seconds 9, 140); (seconds (-4), 150)]).
  right. left. reflexivity.
Defined.

(** ** Time parsing *)

Lemma contains_app (c : ascii) (s1 s2 : string) :
  contains c (s1 ++ s2) = contains c s1 || contains c s2.
Proof.
  induction s1 as [|d s1 IH]; [reflexivity|].
  cbn [append contains]. now rewrite IH, orb_assoc.
Qed.

(** Replacing a character by a text that does not have it removes it. *)
Lemma replace_removes (old : ascii) (new s : string) :
  contains old new = false -> contains old (replace old new s) = false.
Proof.
  intros Hnew. induction s as [|c s IH]; [reflexivity|].
  cbn [replace]. destruct (Ascii.eqb c old) eqn:E.
  - now rewrite contains_app, Hnew, IH.
  - cbn [contains]. now rewrite E, IH.
Qed.

Lemma split_head_contains (c sep : ascii) (s : string) :
  contains c s = false -> contains c (split_head sep s) = false.
Proof.
  induction s as [|d s IH]; [reflexivity|].
  cbn [contains split_head]. intros H.
  apply orb_false_iff in H as [Hd Hs].
  destruct (Ascii.eqb d sep); [reflexivity|].
  cbn [contains]. now rewrite Hd, IH.
Qed.

Lemma normalized_no_Z (t : string) : contains "Z" (normalized t) = false.
Proof. unfold normalized. now apply replace_removes. Qed.

(** X6.  The text [parse_time] gives to [fromisoformat] has no "Z" left,
    wherever the "Z" were in the input, and a text already in that form
    parses to the same result: [parse_time] of the text with every "Z"
    replaced by "+00:00" is [parse_time] of the text. *)
Theorem parse_time_normalized (B : Builtins) (t : string) :
  contains "Z" (normalized t) = false /\
  contains "Z" (fallback t) = false /\
  parse_time (normalized t) = parse_time t.
Proof.
  split; [apply normalized_no_Z|]. split.
  - unfold fallback. destruct (contains "." (normalized t)).
    + rewrite contains_app.
      rewrite (split_head_contains _ _ _ (normalized_no_Z t)). reflexivity.
    + apply normalized_no_Z.
  - unfold parse_time. fold (normalized t). fold (normalized (normalized t)).
    replace (normalized (normalized t)) with (normalized t); [reflexivity|].
    symmetry. apply replace_absent, normalized_no_Z.
Qed.

(** X7.  The second attempt of [parse_time] is on a text without ".":
    what follows the first "." of the text, the offset it carried
    included, is dropped and the offset is taken as +00:00. *)
Theorem parse_time_fallback_drops_fraction (head rest : string) :
  contains "." head = false ->
  contains "Z" head = false ->
  fallback (head ++ String "." rest) = head ++ "+00:00" /\
  contains "." (fallback (head ++ String "." rest)) = false.
Proof.
  intros Hdot HZ.
  assert (Hn : normalized (head ++ String "." rest)
               = head ++ String "." (normalized rest)).
  { unfold normalized. rewrite replace_app, (replace_absent _ _ _ HZ).
    reflexivity. }
  assert (Hc : contains "." (head ++ String "." (normalized rest)) = true).
  { rewrite contains_app. cbn [contains]. rewrite Ascii.eqb_refl.
    now rewrite orb_true_r. }
  assert (Hs : forall s, split_head "." (head ++ String "." s) = head).
  { intros s. clear - Hdot. induction head as [|c head IH]; [reflexivity|].
    cbn [contains] in Hdot. apply orb_false_iff in Hdot as [Hc Hh].
    cbn [append split_head]. rewrite Hc. now rewrite IH. }
  assert (Hf : fallback (head ++ String "." rest) = head ++ "+00:00").
  { unfold fallback. rewrite Hn, Hc, Hs. reflexivity. }
  split; [exact Hf|].
  rewrite Hf, contains_app, Hdot. reflexivity.
Qed.

Lemma parse_time_fallback_drops_fraction_witness :
  fallback ("2024-01-01T10:00:00" ++ String "." "123456789-05:00")
  = "2024-01-01T10:00:00" ++ "+00:00".
Proof.
  apply (parse_time_fallback_drops_fraction "2024-01-01T10:00:00"
           "123456789-05:00"); reflexivity.
Defined.

(** ** Failures of the two loading loops *)

Section LoadingFailures.

Context {builtins : Builtins}.

Lemma parse_time_raises (text : string) (e : exn) :
  parse_time text = Raise e -> e = ValueError.
Proof. intros H. now apply parse_time_fails_iff in H. Qed.

Lemma load_hr_loop_ok (trkpts : list trkpt) :
  forall pts res, load_hr_loop trkpts pts = Ok res -> Forall time_parses trkpts.
Proof.
  induction trkpts as [|x rest IH]; intros pts res H; [constructor|].
  cbn [load_hr_loop] in H.
  destruct (el_time x) as [text|] eqn:Ht.
  - destruct (parse_time text) as [t|e] eqn:Hp; [|discriminate].
    cbn [bind] in H. constructor.
    + intros text' E. rewrite Ht in E. injection E as <-. now exists t.
    + destruct (el_hr x) as [h|]; [destruct (truthy (Some h))|];
        now apply (IH _ _ H).
  - constructor; [|now apply (IH _ _ H)].
    intros text E. rewrite Ht in E. discriminate.
Qed.

Lemma load_hr_loop_raises (trkpts : list trkpt) :
  forall pts e,
    load_hr_loop trkpts pts = Raise e ->
    e = ValueError /\
    exists x text, In x trkpts /\ el_time x = Some text /\
                   parse_time text = Raise ValueError.
Proof.
  induction trkpts as [|x rest IH]; intros pts e H; [discriminate|].
  cbn [load_hr_loop] in H.
  assert (Tail : forall pts', load_hr_loop rest pts' = Raise e ->
            e = ValueError /\
            exists y text, In y (x :: rest) /\ el_time y = Some text /\
                           parse_time text = Raise ValueError).
  { intros pts' H'. destruct (IH _ _ H') as (He & y & text & Hy & Ht & Hp).
    split; [exact He|]. exists y, text. split; [now right | now split]. }
  destruct (el_time x) as [text|] eqn:Ht; [|now apply (Tail pts)].
  destruct (parse_time text) as [t|e'] eqn:Hp.
  - cbn [bind] in H.
    destruct (el_hr x) as [h|]; [destruct (truthy (Some h))|];
      now apply Tail in H.
  - cbn [bind] in H. injection H as <-.
    pose proof (parse_time_raises _ _ Hp) as ->.
    split; [reflexivity|]. exists x, text. split; [now left | now split].
Qed.

Lemma track_loop_ok (hr_data : list (datetime * Z)) (trkpts : list trkpt) :
  forall st st', track_loop hr_data trkpts st = Ok st' ->
                 Forall time_parses trkpts.
Proof.
  induction trkpts as [|x rest IH]; intros st st' H; [constructor|].
  cbn [track_loop] in H.
  destruct (track_step hr_data st x) as [st1|e] eqn:Hs; [|discriminate].
  cbn [bind] in H. constructor; [|now apply (IH _ _ H)].
  unfold track_step in Hs. intros text Ht. rewrite Ht in Hs.
  destruct (parse_time text) as [t|e]; [now exists t | discriminate].
Qed.

Lemma track_loop_raises (hr_data : list (datetime * Z)) (trkpts : list trkpt) :
  forall st e,
    track_loop hr_data trkpts st = Raise e ->
    e = ValueError /\
    exists x text, In x trkpts /\ el_time x = Some text /\
                   parse_time text = Raise ValueError.
Proof.
  induction trkpts as [|x rest IH]; intros st e H; [discriminate|].
  cbn [track_loop] in H.
  destruct (track_step hr_data st x) as [st1|e'] eqn:Hs.
  - cbn [bind] in H. destruct (IH _ _ H) as (He & y & text & Hy & Ht & Hp).
    split; [exact He|]. exists y, text. split; [now right | now split].
  - cbn [bind] in H. injection H as <-.
    unfold track_step in Hs. destruct (el_time x) as [text|] eqn:Ht;
      [|discriminate].
    destruct (parse_time text) as [t|e] eqn:Hp; [discriminate|].
    cbn [bind] in Hs. injection Hs as <-.
    pose proof (parse_time_raises _ _ Hp) as ->.
    split; [reflexivity|]. exists x, text. split; [now left | now split].
Qed.

Lemma build_track_ok (hr_data : list (datetime * Z)) (root : list trkpt)
    (series : list TrackPoint) :
  build_track hr_data root = Ok series -> Forall time_parses root.
Proof.
  unfold build_track. intros H.
  destruct (track_loop hr_data root builder_init) as [st|e] eqn:Hl;
    [|discriminate].
  now apply (track_loop_ok _ _ _ _ Hl).
Qed.

Lemma build_track_raises (hr_data : list (datetime * Z)) (root : list trkpt)
    (e : exn) :
  build_track hr_data root = Raise e ->
  e = ValueError /\
  exists x text, In x root /\ el_time x = Some text /\
                 parse_time text = Raise ValueError.
Proof.
  unfold build_track.
  destruct (track_loop hr_data root builder_init) as [st|e'] eqn:Hl;
    [discriminate|].
  cbn [bind]. intros H. injection H as <-.
  now apply (track_loop_raises _ _ _ _ Hl).
Qed.

End LoadingFailures.

(** X8.  When [load_hr_data] returns, the time text of every entry that
    has one has parsed, the entries without heart rate and with the heart
    rate 0 included: the time of an entry is parsed before its heart rate
    is looked at, so one time text that does not parse makes the whole load
    fail, whatever the heart rate of its entry. *)
Theorem load_hr_data_fails_on_any_time (B : Builtins) (fs : filesystem)
    (path : string) (root : list trkpt) (hr_data : list (datetime * Z)) :
  load_hr_data fs path = Ok hr_data ->
  fs path = Some root ->
  Forall time_parses root /\
  (forall x text, In x root -> el_time x = Some text ->
                  parse_time text <> Raise ValueError).
Proof.
  unfold load_hr_data. intros H Hroot. rewrite Hroot in H.
  pose proof (load_hr_loop_ok _ _ _ H) as Hall.
  split; [exact Hall|].
  intros x text Hx Ht Hp. rewrite Forall_forall in Hall.
  destruct (Hall x Hx text Ht) as [t Hok]. rewrite Hok in Hp. discriminate.
Qed.

Lemma load_hr_data_fails_on_any_time_witness :
  Forall (@time_parses sample_builtins) sample_hr_doc /\
  forall hr_data,
    @load_hr_data sample_builtins
      (files None (Some [hr_entry "2024-01-01T10:00:03Z" 150;
                         hr_entry "noon" 0])) file_hr <> Ok hr_data.
Proof.
  split.
  - apply (load_hr_data_fails_on_any_time sample_builtins
             (files None (Some sample_hr_doc)) file_hr sample_hr_doc
             [(seconds 1704103203, 150)]); reflexivity.
  - intros hr_data H.
    destruct (load_hr_data_fails_on_any_time sample_builtins _ file_hr
                [hr_entry "2024-01-01T10:00:03Z" 150; hr_entry "noon" 0]
                hr_data H eq_refl) as [_ Hno].
    apply (Hno (hr_entry "noon" 0) "noon"); [right; now left | | ]; reflexivity.
Defined.

(** X9.  When the GPS loop succeeds, the time text of every element that
    has one has parsed: one time text that does not parse makes the loop
    fail, wherever its element is in the document. *)
Theorem build_track_fails_on_any_time (B : Builtins)
    (hr_data : list (datetime * Z)) (root : list trkpt)
    (series : list TrackPoint) :
  build_track hr_data root = Ok series ->
  Forall time_parses root /\
  (forall x text, In x root -> el_time x = Some text ->
                  parse_time text <> Raise ValueError).
Proof.
  intros H.
  assert (Hall : Forall time_parses root).
  { now apply (build_track_ok hr_data root series). }
  split; [exact Hall|].
  intros x text Hx Ht Hp. rewrite Forall_forall in Hall.
  destruct (Hall x Hx text Ht) as [t Hok]. rewrite Hok in Hp. discriminate.
Qed.

Lemma build_track_fails_on_any_time_witness :
  Forall (@time_parses sample_builtins) sample_track /\
  forall series,
    @build_track sample_builtins []
      [gps_fix 45 "2024-01-01T10:00:00Z"; gps_fix 46 "noon"] <> Ok series.
Proof.
  split.
  - apply (build_track_fails_on_any_time sample_builtins [] sample_track
             sample_series). reflexivity.
  - intros series H.
    destruct (build_track_fails_on_any_time sample_builtins []
                [gps_fix 45 "2024-01-01T10:00:00Z"; gps_fix 46 "noon"]
                series H) as [_ Hno].
    apply (Hno (gps_fix 46 "noon") "noon"); [right; now left | | ]; reflexivity.
Defined.

(** ** The GPS loop *)

Section GpsLoop.

Context {builtins : Builtins}.

Lemma track_loop_same_but_hr (hr1 hr2 : list (datetime * Z))
    (trkpts : list trkpt) :
  forall st1 st2 st1',
    Forall2 same_but_hr (track_points st1) (track_points st2) ->
    prev st1 = prev st2 ->
    raw_accumulated_dist st1 = raw_accumulated_dist st2 ->
    track_loop hr1 trkpts st1 = Ok st1' ->
    exists st2',
      track_loop hr2 trkpts st2 = Ok st2' /\
      Forall2 same_but_hr (track_points st1') (track_points st2').
Proof.
  induction trkpts as [|x rest IH]; intros st1 st2 st1' Hpts Hprev Hacc H.
  - cbn in H. injection H as <-. now exists st2.
  - cbn [track_loop] in *. unfold track_step in *.
    destruct (el_time x) as [text|].
    + destruct (parse_time text) as [t|e]; [|discriminate].
      cbn [bind] in *. rewrite <- Hprev, <- Hacc.
      eapply IH; [| | |exact H]; cbn; try reflexivity.
      apply Forall2_app; [exact Hpts|].
      constructor; [|constructor]. unfold same_but_hr. cbn. tauto.
    + cbn [bind] in *. now apply (IH st1 st2).
Qed.

Lemma track_loop_count (hr_data : list (datetime * Z)) (trkpts : list trkpt)
    (st : builder) :
  track_loop hr_data trkpts builder_init = Ok st ->
  found_points st = List.length (track_points st) /\
  List.length (track_points st) = List.length (filter has_time trkpts).
Proof.
  intros H. destruct (track_loop_points _ _ _ _ H) as (new & Hnew & Hall & Hc).
  cbn in Hnew, Hc. subst new. split; [exact Hc|].
  symmetry. now apply (Forall2_length Hall).
Qed.

End GpsLoop.

(** X10.  The heart-rate samples decide nothing of the series but the
    heart rates: when the GPS loop succeeds on a document with two lists of
    samples, the two series have the same points but for their [hr]. *)
Theorem heart_rate_changes_only_hr (B : Builtins)
    (hr1 hr2 : list (datetime * Z)) (root : list trkpt)
    (series1 series2 : list TrackPoint) :
  build_track hr1 root = Ok series1 ->
  build_track hr2 root = Ok series2 ->
  Forall2 same_but_hr series1 series2.
Proof.
  unfold build_track. intros H1 H2.
  destruct (track_loop hr1 root builder_init) as [st1|e] eqn:E1;
    [|discriminate].
  cbn [bind] in H1. injection H1 as <-.
  destruct (track_loop_same_but_hr hr1 hr2 root builder_init builder_init st1)
    as (st2 & E2 & Hsame); try reflexivity; try exact E1; [constructor|].
  rewrite E2 in H2. cbn [bind] in H2. now injection H2 as <-.
Qed.

Lemma heart_rate_changes_only_hr_witness :
  exists series2,
    @build_track sample_builtins [(seconds 1704103203, 150)] sample_track
      = Ok series2 /\
    Forall2 same_but_hr sample_series series2.
Proof.
  destruct (@build_track sample_builtins [(seconds 1704103203, 150)]
              sample_track) as [series2|e] eqn:H2; [|discriminate H2].
  exists series2. split; [reflexivity|].
  apply (heart_rate_changes_only_hr sample_builtins []
           [(seconds 1704103203, 150)] sample_track sample_series series2);
    [reflexivity | exact H2].
Defined.

(** X11.  The series has one point for each element that has a time, in
    document order, and the counter [found_points] of the loop ends at
    that number; each point has the latitude and longitude of its element,
    its elevation or 0 when the element has none, the instant its time
    text parses to, the heart rate [get_closest_hr] finds at that instant,
    and no [dist_calculated] yet. *)
Theorem build_track_points_of_elements (B : Builtins)
    (hr_data : list (datetime * Z)) (root : list trkpt) (st : builder) :
  track_loop hr_data root builder_init = Ok st ->
  build_track hr_data root = Ok (track_points st) /\
  Forall2 (point_of hr_data) (filter has_time root) (track_points st) /\
  List.length (track_points st) = List.length (filter has_time root) /\
  found_points st = List.length (track_points st).
Proof.
  intros H.
  assert (Hb : build_track hr_data root = Ok (track_points st)).
  { unfold build_track. now rewrite H. }
  destruct (track_loop_count _ _ _ H) as [Hfound Hlen].
  split; [exact Hb|]. split; [now apply build_track_points|].
  now split.
Qed.

Lemma build_track_points_of_elements_witness :
  exists st,
    @track_loop sample_builtins [] sample_track builder_init = Ok st /\
    track_points st = sample_series /\ found_points st = 2%nat.
Proof.
  eexists. split; [reflexivity|]. split; [reflexivity|].
  match goal with
  | |- found_points ?st = _ =>
      rewrite (proj2 (proj2 (proj2 (build_track_points_of_elements
                 sample_builtins [] sample_track st eq_refl))))
  end.
  reflexivity.
Defined.

(** ** Rescaling *)

Lemma total_gps_dist_rescale (target_meters : R) (series : list TrackPoint) :
  total_gps_dist (rescale target_meters series) = total_gps_dist series.
Proof.
  unfold rescale, total_gps_dist. rewrite <- map_rev.
  destruct (rev series) as [|p l]; reflexivity.
Qed.

(** X12.  Rescaling reads only [raw_dist], which it leaves as it is: the
    raw total of a rescaled series is that of the series, and rescaling a
    rescaled series to a second target gives what rescaling the series to
    that target gives. *)
Theorem rescale_again (target1 target2 : R) (series : list TrackPoint) :
  total_gps_dist (rescale target1 series) = total_gps_dist series /\
  rescale target2 (rescale target1 series) = rescale target2 series.
Proof.
  split; [apply total_gps_dist_rescale|].
  unfold rescale at 1. rewrite total_gps_dist_rescale.
  unfold rescale. rewrite map_map. apply map_ext. reflexivity.
Qed.





Lemma chained_coincident (p : TrackPoint) (rest : list TrackPoint) :
  chained p rest ->
  Forall (fun q => lat q = lat p /\ lon q = lon p) rest ->
  Forall (fun q => raw_dist q = raw_dist p) rest.
Proof.
  revert p. induction rest as [|r rest IH]; intros p Hc Hpos; [constructor|].
  destruct Hc as [Hr Hc]. inversion Hpos as [|? ? [Hlat Hlon] Hrest]; subst.
  assert (Hraw : raw_dist r = raw_dist p).
  { rewrite Hr. unfold step_between. rewrite Hlat, Hlon, haversine_same. lra. }
  constructor; [exact Hraw|].
  rewrite <- Hraw. apply IH; [exact Hc|].
  apply Forall_impl with (2 := Hrest). intros q [-> ->]. now split.
Qed.

Lemma Forall2_right_in {A C : Type} (P : A -> C -> Prop) (l : list A)
    (l' : list C) (c : C) :
  Forall2 P l l' -> In c l' -> exists a, In a l /\ P a c.
Proof.
  induction 1 as [|a b la lb Hab _ IH]; [contradiction|].
  intros [<-|Hin].
  - exists a. split; [now left | exact Hab].
  - destruct (IH Hin) as (a' & Ha' & HP). exists a'. split; [now right|exact HP].
Qed.

(** X14.  When the elements that have a time are all at one position, the
    raw distance is 0 at every point, so is the raw total, and rescaling
    gives the corrected distance 0 at every point whatever the target. *)
Theorem coincident_track_stays_at_zero (B : Builtins)
    (hr_data : list (datetime * Z)) (root : list trkpt)
    (series : list TrackPoint) (target_meters : R) :
  build_track hr_data root = Ok series ->
  (forall x y, In x (filter has_time root) -> In y (filter has_time root) ->
               attr_lat x = attr_lat y /\ attr_lon x = attr_lon y) ->
  Forall (fun p => raw_dist p = 0%R) series /\
  total_gps_dist series = 0%R /\
  Forall (fun q => dist_calculated q = Some 0%R) (rescale target_meters series).
Proof.
  intros Hb Hsame.
  assert (Hraw : Forall (fun p => raw_dist p = 0%R) series).
  { pose proof (build_track_points _ _ _ Hb) as Hpts.
    destruct series as [|first rest]; [constructor|].
    destruct (build_track_chained _ _ _ _ Hb) as [H0 Hc].
    constructor; [exact H0|].
    rewrite <- H0. apply chained_coincident; [exact Hc|].
    apply Forall_forall. intros q Hq.
    destruct (Forall2_right_in _ _ _ q Hpts (or_intror Hq))
      as (x & Hx & Hqx & Hqy & _).
    destruct (Forall2_right_in _ _ _ first Hpts (or_introl eq_refl))
      as (y & Hy & Hfx & Hfy & _).
    destruct (Hsame x y Hx Hy) as [Elat Elon].
    rewrite Hqx, Hqy, Hfx, Hfy. now split. }
  assert (Htotal : total_gps_dist series = 0%R).
  { destruct series as [|first rest]; [reflexivity|].
    rewrite total_gps_dist_last.
    destruct (last_from_split first rest) as [l Hl].
    rewrite Forall_forall in Hraw. apply Hraw. rewrite Hl.
    apply in_or_app. right. now left. }
  split; [exact Hraw|]. split; [exact Htotal|].
  unfold rescale. rewrite Htotal, correction_ratio_degenerate by lra.
  apply Forall_forall. intros q Hq. apply in_map_iff in Hq as (p & <- & Hp).
  rewrite Forall_forall in Hraw. cbn [dist_calculated set_dist_calculated].
  rewrite (Hraw p Hp). f_equal. lra.
Qed.

Lemma coincident_track_stays_at_zero_witness :
  exists series,
    @build_track sample_builtins []
      [gps_fix 45 "2024-01-01T10:00:00Z"; gps_fix 45 "2024-01-01T10:00:03Z"]
      = Ok series /\
    Forall (fun q => dist_calculated q = Some 0%R) (rescale 5000 series).
Proof.
  eexists. split; [reflexivity|].
  apply (coincident_track_stays_at_zero sample_builtins []
           [gps_fix 45 "2024-01-01T10:00:00Z";
            gps_fix 45 "2024-01-01T10:00:03Z"]); [reflexivity|].
  intros x y Hx Hy. cbn in Hx, Hy.
  destruct Hx as [<-|[<-|[]]]; destruct Hy as [<-|[<-|[]]]; split; reflexivity.
Defined.

(** ** The writer *)

Lemma trackpoint_node_raises (p : TrackPoint) (e : exn) :
  trackpoint_node p = Raise e <-> e = KeyError /\ dist_calculated p = None.
Proof.
  unfold trackpoint_node. destruct (dist_calculated p) as [d|].
  - split; [discriminate | intros [_ H]; discriminate].
  - split; [intros H; injection H as <-; now split | now intros [-> _]].
Qed.

Lemma trackpoint_nodes_raises (points : list TrackPoint) (e : exn) :
  trackpoint_nodes points = Raise e <->
  e = KeyError /\ Exists (fun p => dist_calculated p = None) points.
Proof.
  induction points as [|p rest IH].
  - split; [discriminate | intros [_ H]; inversion H].
  - cbn [trackpoint_nodes].
    destruct (trackpoint_node p) as [n|e'] eqn:Hn; cbn [bind].
    + assert (Hd : dist_calculated p <> None).
      { intros Hd. unfold trackpoint_node in Hn. now rewrite Hd in Hn. }
      destruct (trackpoint_nodes rest) as [ns|e'']; cbn [bind].
      * split; [discriminate|].
        intros [He Hex].
        inversion Hex as [? ? Hp|? ? Hrest]; subst; [contradiction|].
        pose proof (proj2 IH (conj eq_refl Hrest)) as F. discriminate F.
      * split.
        -- intros H. destruct (proj1 IH H) as [He Hex].
           split; [exact He | now right].
        -- intros [He Hex].
           inversion Hex as [? ? Hp|? ? Hrest]; subst; [contradiction|].
           apply IH. now split.
    + apply trackpoint_node_raises in Hn as [-> Hd]. split.
      * intros H. injection H as <-. split; [reflexivity | now left].
      * now intros [-> _].
Qed.

Lemma trackpoint_nodes_length (points : list TrackPoint) :
  forall track,
    trackpoint_nodes points = Ok track ->
    List.length (flat_map (elements "Trackpoint") track) = List.length points.
Proof.
  induction points as [|p rest IH]; intros track H.
  - cbn in H. now injection H as <-.
  - destruct (trackpoint_nodes_cons _ _ _ H) as (n & ns & -> & Hn & Hns).
    destruct (trackpoint_node_is_trackpoint _ _ Hn) as [He _].
    cbn [flat_map]. rewrite He. cbn [app List.length]. now rewrite (IH _ Hns).
Qed.

Lemma heart_rate_nodes_length (points : list TrackPoint) :
  List.length (flat_map heart_rate_nodes points) =
  List.length (filter has_heart_rate points).
Proof.
  induction points as [|p rest IH]; [reflexivity|].
  cbn [flat_map filter]. rewrite length_app, IH.
  unfold heart_rate_nodes, has_heart_rate.
  destruct (hr p) as [h|]; [destruct (truthy (Some h))|]; reflexivity.
Qed.

Lemma create_tcx_header (points : list TrackPoint) (start_time : datetime)
    (total_duration_sec total_dist_meters : R) (doc : node) :
  create_tcx points start_time total_duration_sec total_dist_meters = Ok doc ->
  activity_id doc = [Time start_time] /\
  lap_total_time doc = [Float total_duration_sec].
Proof.
  unfold create_tcx.
  destruct (trackpoint_nodes points) as [track|e]; [|discriminate].
  cbn [bind]. intros H. injection H as <-. split; reflexivity.
Qed.

Lemma create_tcx_trackpoint_count (points : list TrackPoint)
    (start_time : datetime) (total_duration_sec total_dist_meters : R)
    (doc : node) :
  create_tcx points start_time total_duration_sec total_dist_meters = Ok doc ->
  List.length (elements "Trackpoint" doc) = List.length points.
Proof.
  intros H.
  destruct (create_tcx_track _ _ _ _ _ H) as (track & Ht & _ & He & _).
  rewrite He. now apply trackpoint_nodes_length.
Qed.

(** X15.  [create_tcx] fails exactly when some point has no
    [dist_calculated], and then with a [KeyError]; when it succeeds the
    document has one [Trackpoint] element for each point. *)
Theorem create_tcx_needs_corrected_distance (points : list TrackPoint)
    (start_time : datetime) (total_duration_sec total_dist_meters : R) :
  (forall e,
     create_tcx points start_time total_duration_sec total_dist_meters
       = Raise e <->
     e = KeyError /\ Exists (fun p => dist_calculated p = None) points) /\
  (forall doc,
     create_tcx points start_time total_duration_sec total_dist_meters
       = Ok doc ->
     List.length (elements "Trackpoint" doc) = List.length points).
Proof.
  split.
  - intros e. rewrite <- trackpoint_nodes_raises. unfold create_tcx.
    destruct (trackpoint_nodes points) as [track|e']; cbn [bind].
    + split; discriminate.
    + split; intros H; injection H as <-; reflexivity.
  - apply create_tcx_trackpoint_count.
Qed.

Lemma create_tcx_needs_corrected_distance_witness :
  create_tcx measured_series 0 0 100 = Raise KeyError /\
  (forall doc,
     create_tcx (rescale 200 measured_series) 0 0 200 = Ok doc ->
     List.length (elements "Trackpoint" doc) = 3%nat).
Proof.
  destruct (create_tcx_needs_corrected_distance measured_series 0 0 100)
    as [Fails _].
  destruct (create_tcx_needs_corrected_distance (rescale 200 measured_series)
              0 0 200) as [_ Count].
  split.
  - apply Fails. split; [reflexivity|]. left. reflexivity.
  - intros doc H. now rewrite (Count doc H).
Defined.

(** X16.  A document [create_tcx] writes has one [HeartRateBpm] element
    for each point whose heart rate is neither absent nor zero, with the
    values of those points in order; so it never has more such elements
    than [Trackpoint] elements. *)
Theorem create_tcx_heart_rate_count (points : list TrackPoint)
    (start_time : datetime) (total_duration_sec total_dist_meters : R)
    (doc : node) :
  create_tcx points start_time total_duration_sec total_dist_meters = Ok doc ->
  List.length (elements "HeartRateBpm" doc) =
    List.length (filter has_heart_rate points) /\
  heart_rate_values doc =
    flat_map (fun p => match hr p with Some n => [Int n] | None => [] end)
      (filter has_heart_rate points) /\
  (List.length (elements "HeartRateBpm" doc) <=
   List.length (elements "Trackpoint" doc))%nat.
Proof.
  intros H. destruct (create_tcx_heart_rates _ _ _ _ _ H) as [He Hv].
  assert (Hlen : List.length (elements "HeartRateBpm" doc) =
                 List.length (filter has_heart_rate points)).
  { rewrite He. apply heart_rate_nodes_length. }
  split; [exact Hlen|]. split.
  - rewrite Hv. unfold heart_rates_written. clear.
    induction points as [|p rest IH]; [reflexivity|].
    cbn [flat_map filter]. rewrite map_app, IH.
    unfold has_heart_rate.
    destruct (hr p) as [h|] eqn:Hh; [|reflexivity].
    destruct (truthy (Some h)); [|reflexivity].
    cbn [flat_map map app]. now rewrite Hh.
  - rewrite Hlen, (create_tcx_trackpoint_count _ _ _ _ _ H).
    apply filter_length_le.
Qed.

Lemma create_tcx_heart_rate_count_witness :
  exists doc,
    create_tcx heart_rate_points 0 0 0 = Ok doc /\
    List.length (elements "HeartRateBpm" doc) = 1%nat /\
    heart_rate_values doc = [Int 150].
Proof.
  destruct (create_tcx heart_rate_points 0 0 0) as [doc|e] eqn:H;
    [|discriminate H].
  exists doc. split; [reflexivity|].
  destruct (create_tcx_heart_rate_count heart_rate_points 0 0 0 doc H)
    as (Hlen & Hvalues & _).
  split; [exact Hlen | exact Hvalues].
Defined.

(** ** The run *)

Section RunOutcomes.

Context {builtins : Builtins}.

Lemma replace_comma_twice (arg : string) :
  replace "," "." (replace "," "." arg) = replace "," "." arg.
Proof. apply replace_absent. now apply replace_removes. Qed.

Lemma end_time_rescaled (target_meters : R) (first : TrackPoint)
    (rest : list TrackPoint) (start_t : datetime) :
  match rev (rescale target_meters (first :: rest)) with
  | p :: _ => time p
  | [] => start_t
  end = time (last_from first rest).
Proof.
  unfold rescale.
  generalize (correction_ratio target_meters (total_gps_dist (first :: rest))).
  intros ratio. destruct (last_from_split first rest) as [l ->].
  rewrite map_app. cbn [map]. now rewrite rev_unit.
Qed.

Lemma finish_create_tcx (target_km : R) (first : TrackPoint)
    (rest : list TrackPoint) (doc : node) :
  finish target_km first (first :: rest) = Written doc <->
  create_tcx (rescale (target_km * 1000) (first :: rest)) (time first)
    (total_seconds (time (last_from first rest)) (time first))
    (target_km * 1000) = Ok doc.
Proof.
  unfold finish. rewrite end_time_rescaled.
  destruct (create_tcx _ _ _ _) as [d|e].
  - split; intros H; injection H as <-; reflexivity.
  - split; discriminate.
Qed.

Lemma main_with_inputs (prog arg : string) (more : list string)
    (fs : filesystem) (target_km : R) (hr_root gps_root : list trkpt) :
  float (replace "," "." arg) = Some target_km ->
  fs file_hr = Some hr_root ->
  fs file_gps = Some gps_root ->
  main (prog :: arg :: more) fs =
  match load_hr_loop hr_root [] with
  | Raise e => Uncaught e
  | Ok hr_data =>
      match build_track hr_data gps_root with
      | Raise e => Uncaught e
      | Ok [] => Returned NoTrackPoints
      | Ok (first :: rest) => finish target_km first (first :: rest)
      end
  end.
Proof.
  intros Hf Hh Hg. unfold main, exists_, load_hr_data.
  rewrite Hf, Hg, Hh. reflexivity.
Qed.

Lemma completes_finish (argv : list string) (fs : filesystem)
    (hr_data : list (datetime * Z)) (series : list TrackPoint)
    (target_meters : R) (doc : node) :
  completes argv fs hr_data series target_meters doc ->
  exists target_km first rest,
    series = first :: rest /\ target_meters = (target_km * 1000)%R /\
    finish target_km first (first :: rest) = Written doc.
Proof.
  intros Hrun.
  destruct (run_target _ _ _ _ _ _ Hrun)
    as (prog & arg & more & target_km & Hargv & Hf & Ht).
  destruct (run_hr _ _ _ _ _ _ Hrun) as (hr_root & Hh & Hl).
  destruct (run_gps _ _ _ _ _ _ Hrun) as (gps_root & Hg & Hb).
  pose proof (run_nonempty _ _ _ _ _ _ Hrun) as Hne.
  pose proof (run_written _ _ _ _ _ _ Hrun) as Hw.
  destruct series as [|first rest]; [contradiction|].
  exists target_km, first, rest. split; [reflexivity|]. split; [exact Ht|].
  rewrite Hargv, (main_with_inputs _ _ _ _ _ _ _ Hf Hh Hg) in Hw.
  unfold load_hr_data in Hl. rewrite Hh in Hl. now rewrite Hl, Hb in Hw.
Qed.

Lemma track_loop_no_time (hr_data : list (datetime * Z)) (trkpts : list trkpt) :
  filter has_time trkpts = [] ->
  forall st, track_loop hr_data trkpts st = Ok st.
Proof.
  induction trkpts as [|x rest IH]; intros H st; [reflexivity|].
  cbn [filter] in H. unfold has_time in H at 1.
  cbn [track_loop]. unfold track_step.
  destruct (el_time x) as [text|]; [discriminate|].
  cbn [bind]. now apply IH.
Qed.

Lemma build_track_empty_iff (hr_data : list (datetime * Z))
    (root : list trkpt) :
  build_track hr_data root = Ok [] <-> filter has_time root = [].
Proof.
  split.
  - intros H. apply build_track_points in H. now inversion H.
  - intros H. unfold build_track. now rewrite (track_loop_no_time _ _ H).
Qed.

End RunOutcomes.

(** X17.  [main] reads the second element of [argv] only, with every ","
    taken as ".": the program name and any further argument change nothing,
    and an argument written with commas runs as the one written with
    dots. *)
Theorem main_argument_normalized (B : Builtins) (prog prog' arg : string)
    (more more' : list string) (fs : filesystem) :
  main (prog :: arg :: more) fs =
  main (prog' :: replace "," "." arg :: more') fs.
Proof.
  assert (Hsame : replace "," "." (replace "," "." arg) = replace "," "." arg).
  { apply replace_absent. now apply replace_removes. }
  unfold main. rewrite Hsame.
  destruct (float (replace "," "." arg)); reflexivity.
Qed.

(** X18.  A run writes its document only when it has an argument that
    [float] reads, both input files exist, every time text of both
    documents parses, and some element of the GPS document has a time. *)
Theorem main_writes_only_if (B : Builtins) (argv : list string)
    (fs : filesystem) (doc : node) :
  main argv fs = Written doc ->
  exists prog arg more target_km hr_root gps_root,
    argv = prog :: arg :: more /\
    float (replace "," "." arg) = Some target_km /\
    fs file_hr = Some hr_root /\ fs file_gps = Some gps_root /\
    Forall time_parses hr_root /\ Forall time_parses gps_root /\
    filter has_time gps_root <> [].
Proof.
  intros H.
  destruct (main_written _ _ _ H) as (hr_data & series & target & Hrun).
  destruct (run_target _ _ _ _ _ _ Hrun)
    as (prog & arg & more & target_km & Hargv & Hf & _).
  destruct (run_hr _ _ _ _ _ _ Hrun) as (hr_root & Hh & Hl).
  destruct (run_gps _ _ _ _ _ _ Hrun) as (gps_root & Hg & Hb).
  exists prog, arg, more, target_km, hr_root, gps_root.
  repeat split; try assumption.
  - unfold load_hr_data in Hl. rewrite Hh in Hl.
    now apply (load_hr_loop_ok _ _ _ Hl).
  - now apply (build_track_ok hr_data gps_root series).
  - intros Hnone. apply build_track_empty_iff with (hr_data := hr_data) in Hnone.
    rewrite Hnone in Hb. injection Hb as <-.
    now apply (run_nonempty _ _ _ _ _ _ Hrun).
Qed.

Lemma main_writes_only_if_witness :
  exists doc,
    @main sample_builtins sample_argv
      (files (Some sample_track) (Some sample_hr_doc)) = Written doc /\
    filter has_time sample_track <> [].
Proof.
  destruct (@main_completes sample_builtins "gpx_hr_merger.py" "5,0" []
              (files (Some sample_track) (Some sample_hr_doc)) 5%R
              sample_hr_doc sample_track [(seconds 1704103203, 150)] _ _
              eq_refl eq_refl eq_refl eq_refl eq_refl)
    as (doc & Hmain & _).
  exists doc. split; [exact Hmain|].
  destruct (main_writes_only_if sample_builtins _ _ doc Hmain)
    as (prog & arg & more & target_km & hr_root & gps_root
        & _ & _ & _ & Hg & _ & _ & Hsome).
  injection Hg as <-. exact Hsome.
Defined.

(** X19.  A run never dies of the [KeyError] of the writer: the rescaling
    loop gives every point of the series its [dist_calculated] before
    [create_tcx] reads it. *)
Theorem main_never_key_error (B : Builtins) :
  (forall target_meters series,
     Forall (fun p => dist_calculated p <> None)
       (rescale target_meters series)) /\
  (forall argv fs, main argv fs <> Uncaught KeyError).
Proof.
  split.
  - intros target_meters series. unfold rescale. apply Forall_forall.
    intros q Hq. apply in_map_iff in Hq as (p & <- & _). discriminate.
  - intros argv fs. unfold main.
    destruct argv as [|prog [|arg more]]; try discriminate.
    destruct (float (replace "," "." arg)) as [target_km|]; [|discriminate].
    destruct (negb (exists_ fs file_gps) || negb (exists_ fs file_hr));
      [discriminate|].
    destruct (load_hr_data fs file_hr) as [hr_data|e1] eqn:Hl.
    + destruct (build_track hr_data _) as [[|first rest]|e2] eqn:Hb.
      * discriminate.
      * destruct (finish_written target_km first rest)
          as (doc & _ & _ & -> & _).
        discriminate.
      * intros H. injection H as ->.
        destruct (build_track_raises _ _ _ Hb) as [He _]. discriminate He.
    + intros H. injection H as ->. unfold load_hr_data in Hl.
      destruct (fs file_hr) as [hr_root|]; [|discriminate].
      destruct (load_hr_loop_raises _ _ _ Hl) as [He _]. discriminate He.
Qed.

Lemma rescaled_distances (target_meters : R) (series : list TrackPoint) :
  flat_map (fun p => match dist_calculated p with
                     | Some d => [Fixed2 d]
                     | None => []
                     end) (rescale target_meters series) =
  map (fun p => Fixed2 (raw_dist p *
                        correction_ratio target_meters (total_gps_dist series)))
    series.
Proof.
  unfold rescale.
  generalize (correction_ratio target_meters (total_gps_dist series)).
  intros ratio. induction series as [|p rest IH]; [reflexivity|].
  cbn [map flat_map app dist_calculated set_dist_calculated]. now rewrite IH.
Qed.

(** X20.  The document a run writes has the time of the first point as
    the [Id] of the activity, the seconds from the first point to the last
    as [TotalTimeSeconds], one [Trackpoint] for each element of the GPS
    document that has a time, and as their [DistanceMeters], in order, the
    raw distances of the points times the correction ratio. *)
Theorem written_document_content (B : Builtins) (argv : list string)
    (fs : filesystem) (hr_data : list (datetime * Z))
    (series : list TrackPoint) (target_meters : R) (doc : node) :
  completes argv fs hr_data series target_meters doc ->
  (exists first rest,
     series = first :: rest /\
     activity_id doc = [Time (time first)] /\
     lap_total_time doc =
       [Float (total_seconds (time (last_from first rest)) (time first))]) /\
  (forall gps_root, fs file_gps = Some gps_root ->
     List.length (elements "Trackpoint" doc)
     = List.length (filter has_time gps_root)) /\
  trackpoint_distances doc =
    map (fun p => Fixed2 (raw_dist p *
                          correction_ratio target_meters
                            (total_gps_dist series))) series.
Proof.
  intros Hrun.
  destruct (completes_finish _ _ _ _ _ _ Hrun)
    as (target_km & first & rest & -> & -> & Hfin).
  apply finish_create_tcx in Hfin.
  destruct (create_tcx_header _ _ _ _ _ Hfin) as [Hid Htime].
  destruct (create_tcx_distances _ _ _ _ _ Hfin) as [_ Hdist].
  split; [now exists first, rest|]. split.
  - intros gps_root Hg.
    destruct (run_gps _ _ _ _ _ _ Hrun) as (gps_root' & Hg' & Hb).
    rewrite Hg in Hg'. injection Hg' as <-.
    rewrite (create_tcx_trackpoint_count _ _ _ _ _ Hfin).
    unfold rescale. rewrite length_map.
    symmetry. apply (Forall2_length (build_track_points _ _ _ Hb)).
  - rewrite Hdist. apply rescaled_distances.
Qed.

Lemma written_document_content_witness :
  exists doc,
    @main sample_builtins sample_argv
      (files (Some sample_track) (Some sample_hr_doc)) = Written doc /\
    List.length (elements "Trackpoint" doc) = 2%nat.
Proof.
  destruct (@main_completes sample_builtins "gpx_hr_merger.py" "5,0" []
              (files (Some sample_track) (Some sample_hr_doc)) 5%R
              sample_hr_doc sample_track [(seconds 1704103203, 150)] _ _
              eq_refl eq_refl eq_refl eq_refl eq_refl)
    as (doc & Hmain & Hrun).
  exists doc. split; [exact Hmain|].
  destruct (written_document_content sample_builtins _ _ _ _ _ _ Hrun)
    as (_ & Hcount & _).
  exact (Hcount sample_track eq_refl).
Defined.

(** X21.  When exactly one element of the GPS document has a time, the
    document written has [TotalTimeSeconds] 0 and one [Trackpoint], whose
    [DistanceMeters] is 0, whatever the target. *)
Theorem single_point_document (B : Builtins) (argv : list string)
    (fs : filesystem) (hr_data : list (datetime * Z))
    (series : list TrackPoint) (target_meters : R) (doc : node)
    (gps_root : list trkpt) (x : trkpt) :
  completes argv fs hr_data series target_meters doc ->
  fs file_gps = Some gps_root ->
  filter has_time gps_root = [x] ->
  lap_total_time doc = [Float 0] /\
  List.length (elements "Trackpoint" doc) = 1%nat /\
  trackpoint_distances doc = [Fixed2 0].
Proof.
  intros Hrun Hg Hone.
  destruct (completes_finish _ _ _ _ _ _ Hrun)
    as (target_km & first & rest & -> & -> & Hfin).
  apply finish_create_tcx in Hfin.
  destruct (run_gps _ _ _ _ _ _ Hrun) as (gps_root' & Hg' & Hb).
  rewrite Hg in Hg'. injection Hg' as <-.
  pose proof (build_track_points _ _ _ Hb) as Hpts. rewrite Hone in Hpts.
  inversion Hpts as [|? ? ? ? _ Hrest]; subst. inversion Hrest; subst.
  destruct (build_track_chained _ _ _ _ Hb) as [H0 _].
  destruct (create_tcx_header _ _ _ _ _ Hfin) as [_ Htime].
  destruct (create_tcx_distances _ _ _ _ _ Hfin) as [_ Hdist].
  split; [|split].
  - rewrite Htime. cbn [last_from]. unfold total_seconds.
    rewrite Z.sub_diag. do 2 f_equal. lra.
  - now rewrite (create_tcx_trackpoint_count _ _ _ _ _ Hfin).
  - rewrite Hdist, rescaled_distances. cbn [map]. rewrite H0.
    do 2 f_equal. lra.
Qed.

Lemma single_point_document_witness :
  exists doc,
    @main sample_builtins sample_argv
      (files (Some [gps_fix 45 "2024-01-01T10:00:00Z"]) (Some sample_hr_doc))
      = Written doc /\
    lap_total_time doc = [Float 0] /\ trackpoint_distances doc = [Fixed2 0].
Proof.
  destruct (@main_completes sample_builtins "gpx_hr_merger.py" "5,0" []
              (files (Some [gps_fix 45 "2024-01-01T10:00:00Z"])
                 (Some sample_hr_doc)) 5%R
              sample_hr_doc [gps_fix 45 "2024-01-01T10:00:00Z"]
              [(seconds 1704103203, 150)] _ _
              eq_refl eq_refl eq_refl eq_refl eq_refl)
    as (doc & Hmain & Hrun).
  exists doc. split; [exact Hmain|].
  destruct (single_point_document sample_builtins _ _ _ _ _ _
              [gps_fix 45 "2024-01-01T10:00:00Z"]
              (gps_fix 45 "2024-01-01T10:00:00Z") Hrun eq_refl eq_refl)
    as (Htime & _ & Hdist).
  now split.
Defined.

Lemma main_one_argument (B : Builtins) (argv : list string) (fs : filesystem) :
  (List.length argv < 2)%nat -> main argv fs = Returned MissingArgument.
Proof.
  destruct argv as [|prog [|arg more]]; cbn [List.length]; intros H;
    [reflexivity | reflexivity | lia].
Qed.

Lemma finish_not_returned (B : Builtins) (target_km : R) (first : TrackPoint)
    (rest : list TrackPoint) (d : diagnostic) :
  finish target_km first (first :: rest) <> Returned d.
Proof.
  destruct (finish_written target_km first rest) as (doc & _ & _ & -> & _).
  discriminate.
Qed.

(** X22.  The diagnostics of [main] come in a fixed order.  The run
    returns for a missing argument exactly when [argv] has fewer than two
    elements; for an invalid argument exactly when [float] does not read the
    second one, whatever the files; and for missing input exactly when the
    argument is read and one of the two files does not exist.  It returns
    for an empty track only when the argument is read, both files exist,
    every time text of the heart-rate document has parsed and no element
    of the GPS document has a time. *)
Theorem main_diagnostics (B : Builtins) (argv : list string)
    (fs : filesystem) :
  (main argv fs = Returned MissingArgument <-> (List.length argv < 2)%nat) /\
  (main argv fs = Returned InvalidArgument <->
   exists prog arg more,
     argv = prog :: arg :: more /\ float (replace "," "." arg) = None) /\
  (main argv fs = Returned MissingInputFile <->
   exists prog arg more target_km,
     argv = prog :: arg :: more /\
     float (replace "," "." arg) = Some target_km /\
     (fs file_gps = None \/ fs file_hr = None)) /\
  (main argv fs = Returned NoTrackPoints ->
   exists prog arg more target_km hr_root gps_root,
     argv = prog :: arg :: more /\
     float (replace "," "." arg) = Some target_km /\
     fs file_hr = Some hr_root /\ fs file_gps = Some gps_root /\
     Forall time_parses hr_root /\ filter has_time gps_root = []).
Proof.
  destruct argv as [|prog [|arg more]].
  - repeat split; try discriminate; try (cbn; lia);
      intros H; decompose record H; discriminate.
  - repeat split; try discriminate; try (cbn; lia);
      intros H; decompose record H; discriminate.
  - assert (Hlen : ~ (List.length (prog :: arg :: more) < 2)%nat)
      by (cbn [List.length]; lia).
    destruct (float (replace "," "." arg)) as [target_km|] eqn:Hf.
    + assert (Hvalid : ~ exists p a m, prog :: arg :: more = p :: a :: m /\
                         float (replace "," "." a) = None).
      { intros (p & a & m & E & Hn). injection E as <- <- <-.
        rewrite Hf in Hn. discriminate. }
      destruct (fs file_gps) as [gps_root|] eqn:Hg;
        destruct (fs file_hr) as [hr_root|] eqn:Hh.
      * assert (Hpresent : ~ exists p a m k,
                  prog :: arg :: more = p :: a :: m /\
                  float (replace "," "." a) = Some k /\
                  (Some gps_root = None \/ Some hr_root = None)).
        { intros (p & a & m & k & _ & _ & [Hn|Hn]); discriminate. }
        rewrite (main_with_inputs _ _ _ _ _ _ _ Hf Hh Hg).
        destruct (load_hr_loop hr_root []) as [hr_data|e] eqn:Hl.
        -- destruct (build_track hr_data gps_root) as [[|first rest]|e] eqn:Hb.
           ++ split; [split; [discriminate | contradiction]|].
              split; [split; [discriminate | contradiction]|].
              split; [split; [discriminate | contradiction]|].
              intros _.
              exists prog, arg, more, target_km, hr_root, gps_root.
              repeat split; try reflexivity; try assumption.
              ** now apply (load_hr_loop_ok _ _ _ Hl).
              ** now apply build_track_empty_iff in Hb.
           ++ split; [split; [intros H; now apply finish_not_returned in H
                             | contradiction]|].
              split; [split; [intros H; now apply finish_not_returned in H
                             | contradiction]|].
              split; [split; [intros H; now apply finish_not_returned in H
                             | contradiction]|].
              intros H. now apply finish_not_returned in H.
           ++ split; [split; [discriminate | contradiction]|].
              split; [split; [discriminate | contradiction]|].
              split; [split; [discriminate | contradiction]|].
              discriminate.
        -- split; [split; [discriminate | contradiction]|].
           split; [split; [discriminate | contradiction]|].
           split; [split; [discriminate | contradiction]|].
           discriminate.
      * assert (Hmain : main (prog :: arg :: more) fs
                        = Returned MissingInputFile).
        { unfold main, exists_. rewrite Hf, Hg, Hh. reflexivity. }
        rewrite Hmain.
        split; [split; [discriminate | contradiction]|].
        split; [split; [discriminate | contradiction]|].
        split; [split; [intros _ | reflexivity]|discriminate].
        exists prog, arg, more, target_km. repeat split; auto.
      * assert (Hmain : main (prog :: arg :: more) fs
                        = Returned MissingInputFile).
        { unfold main, exists_. rewrite Hf, Hg. reflexivity. }
        rewrite Hmain.
        split; [split; [discriminate | contradiction]|].
        split; [split; [discriminate | contradiction]|].
        split; [split; [intros _ | reflexivity]|discriminate].
        exists prog, arg, more, target_km. repeat split; auto.
      * assert (Hmain : main (prog :: arg :: more) fs
                        = Returned MissingInputFile).
        { unfold main, exists_. rewrite Hf, Hg. reflexivity. }
        rewrite Hmain.
        split; [split; [discriminate | contradiction]|].
        split; [split; [discriminate | contradiction]|].
        split; [split; [intros _ | reflexivity]|discriminate].
        exists prog, arg, more, target_km. repeat split; auto.
    + assert (Hmain : main (prog :: arg :: more) fs = Returned InvalidArgument).
      { unfold main. now rewrite Hf. }
      rewrite Hmain.
      split; [split; [discriminate | contradiction]|].
      split; [split; [intros _ | reflexivity]|].
      { now exists prog, arg, more. }
      split; [split; [discriminate|]|discriminate].
      intros (p & a & m & k & E & Hn & _). injection E as <- <- <-.
      rewrite Hf in Hn. discriminate.
Qed.

Lemma main_diagnostics_witness :
  @main sample_builtins ["gpx_hr_merger.py"; "five"] (files None None)
    = Returned InvalidArgument /\
  @main sample_builtins sample_argv (files (Some sample_track) None)
    = Returned MissingInputFile /\
  (exists gps_root,
     files (Some [{| attr_lat := 44; attr_lon := 8; el_ele := None;
                     el_time := None; el_hr := None |}])
           (Some sample_hr_doc) file_gps = Some gps_root /\
     filter has_time gps_root = []).
Proof.
  split; [|split].
  - destruct (main_diagnostics sample_builtins ["gpx_hr_merger.py"; "five"]
                (files None None)) as (_ & Invalid & _).
    apply Invalid. now exists "gpx_hr_merger.py", "five", [].
  - destruct (main_diagnostics sample_builtins sample_argv
                (files (Some sample_track) None)) as (_ & _ & Missing & _).
    apply Missing. exists "gpx_hr_merger.py", "5,0", [], 5%R.
    split; [reflexivity|]. split; [reflexivity|]. right. reflexivity.
  - destruct (main_diagnostics sample_builtins sample_argv
                (files (Some [{| attr_lat := 44; attr_lon := 8;
                                 el_ele := None; el_time := None;
                                 el_hr := None |}])
                       (Some sample_hr_doc))) as (_ & _ & _ & Empty).
    destruct (Empty eq_refl)
      as (prog & arg & more & target_km & hr_root & gps_root
          & _ & _ & _ & Hg & _ & Hnone).
    now exists gps_root.
Defined.
